(** * Scribe web client: configuration binder and log/export aggregator

    A shallow embedding of the two browser scripts of the docstring-generation
    web tool, [config.js] (form <-> configuration record, provider limits
    display) and [log_export.js] (log aggregator and its JSON / text / CSV
    export), together with the properties their specification states.

    Layout: the JavaScript runtime pieces the scripts rely on (numbers,
    strings, dynamically typed values), then the page model, then the two
    scripts function by function, then the theorems. *)

From Stdlib Require Import ZArith String Ascii List Bool Lia Floats DecimalString.
Import ListNotations.

Set Warnings "-inexact-float,-register-all".

Local Open Scope string_scope.
Local Open Scope Z_scope.

(* ================================================================== *)
(** * The JavaScript runtime *)
(* ================================================================== *)

Module JS.

(** ** Strings

    A string is the sequence of its code units, the way [length], [slice]
    and [replace] count them; a character of [string] stands for a code
    unit below 256. *)

(** The double-quote character, code 34. *)
Definition dq : string := String (ascii_of_nat 34) EmptyString.

(** Line feed, the [\n] of the source's string literals. *)
Definition nl : string := String (ascii_of_nat 10) EmptyString.

(** [s.repeat(n)] for a one-character string. *)
Fixpoint repeat (s : string) (n : nat) : string :=
  match n with
  | O => EmptyString
  | S n' => s ++ repeat s n'
  end.

(** [s.replace(/c/g, by)]: every occurrence of the character [c] replaced. *)
Fixpoint replace_char (c : ascii) (by_ : string) (s : string) : string :=
  match s with
  | EmptyString => EmptyString
  | String a rest =>
      (if Ascii.eqb a c then by_ else String a EmptyString)
        ++ replace_char c by_ rest
  end.

(** [s.replace(/[:.]/g, '-')]. *)
Fixpoint replace_colon_dot (s : string) : string :=
  match s with
  | EmptyString => EmptyString
  | String a rest =>
      String (if Ascii.eqb a ":" || Ascii.eqb a "." then "-"%char else a)
             (replace_colon_dot rest)
  end.

(** [s.slice(0, -k)]: [s] without its last [k] characters. *)
Definition slice_drop_last (k : nat) (s : string) : string :=
  substring 0 (String.length s - k) s.

(** [parts.join(sep)]. *)
Definition join (sep : string) (parts : list string) : string :=
  String.concat sep parts.

(** ** Numbers

    A JavaScript Number is an IEEE 754 binary64 value: the primitive
    [float].  Arithmetic is the primitive one; printing and parsing follow
    ECMA-262 ([Number::toString], [parseFloat], [parseInt]) over the exact
    value [m * 2^e] that [Prim2SF] exposes. *)

Definition number := float.

Bind Scope float_scope with number.

(** Decimal digits of a non-negative integer. *)
Definition Z_to_string (z : Z) : string :=
  NilZero.string_of_int (Z.to_int z).

(** The binary64 value nearest to [(-1)^neg * d * 10^k], ties to even. *)
Definition dec2SF (neg : bool) (d : Z) (k : Z) : spec_float :=
  match d with
  | Z0 => S754_zero neg
  | Zpos p =>
      if 0 <=? k then
        match d * 10 ^ k with
        | Zpos q => binary_round prec emax neg q 0
        | _ => S754_nan
        end
      else
        let den := 10 ^ (- k) in
        let s := Z.max 0 (Z.log2 den + 64 - Z.log2 d) in
        let num := d * 2 ^ s in
        let q := num / den in
        let r := num mod den in
        let loc := if r =? 0 then loc_Exact
                   else loc_Inexact (Z.compare (2 * r) den) in
        binary_round_aux prec emax neg q (- s) loc
  | Zneg _ => S754_nan
  end.

(** Comparison of [m * 2^e] with [10^n], all exact. *)
Definition cmp_pow10 (m : Z) (e n : Z) : comparison :=
  Z.compare (m * 2 ^ Z.max e 0 * 10 ^ Z.max (- n) 0)
            (2 ^ Z.max (- e) 0 * 10 ^ Z.max n 0).

(** The [n] of [Number::toString]: [10^(n-1) <= m * 2^e < 10^n]. *)
Fixpoint adjust_up (fuel : nat) (m e n : Z) : Z :=
  match fuel with
  | O => n
  | S f => match cmp_pow10 m e n with
           | Lt => n
           | _ => adjust_up f m e (n + 1)
           end
  end.

Fixpoint adjust_down (fuel : nat) (m e n : Z) : Z :=
  match fuel with
  | O => n
  | S f => match cmp_pow10 m e (n - 1) with
           | Lt => adjust_down f m e (n - 1)
           | _ => n
           end
  end.

Definition decimal_exponent (m e : Z) : Z :=
  let n0 := (Z.log2 m + e) * 30103 / 100000 in
  adjust_down 4 m e (adjust_up 4 m e n0).

(** Does the decimal [c * 10^j] read back as the float [m * 2^e]? *)
Definition reads_back (m : positive) (e : Z) (c j : Z) : bool :=
  SFeqb (dec2SF false c j) (S754_finite false m e).

(** The shortest digit string: the least [k] for which some [k]-digit
    [s] has [s * 10^(n-k)] read back as the float, and for that [k] the
    [s] closest to the float (the even one on a tie). *)
Fixpoint shortest (fuel : nat) (m : positive) (e n k : Z) : Z * Z :=
  let j := n - k in
  let num := Zpos m * 2 ^ Z.max e 0 * 10 ^ Z.max (- j) 0 in
  let den := 2 ^ Z.max (- e) 0 * 10 ^ Z.max j 0 in
  let lo := num / den in
  let r := num mod den in
  let hi := lo + 1 in
  let ok_lo := reads_back m e lo j in
  let ok_hi := negb (r =? 0) && reads_back m e hi j in
  let pick :=
    match ok_lo, ok_hi with
    | true, true =>
        match Z.compare (2 * r) den with
        | Lt => Some lo
        | Gt => Some hi
        | Eq => Some (if Z.even lo then lo else hi)
        end
    | true, false => Some lo
    | false, true => Some hi
    | false, false => None
    end in
  match pick, fuel with
  | Some s, _ => (s, k)
  | None, O => (lo, k)
  | None, S f => shortest f m e n (k + 1)
  end.

(** [Number::toString(x)] of a positive finite [x = m * 2^e]. *)
Definition positive_to_string (m : positive) (e : Z) : string :=
  let n0 := decimal_exponent (Zpos m) e in
  let '(s0, k0) := shortest 17 m e n0 1 in
  let '(s, k, n) := if s0 =? 10 ^ k0 then (1, 1, n0 + 1) else (s0, k0, n0) in
  let ds := Z_to_string s in
  if (k <=? n) && (n <=? 21) then
    ds ++ repeat "0" (Z.to_nat (n - k))
  else if (0 <? n) && (n <=? 21) then
    substring 0 (Z.to_nat n) ds ++ "." ++
    substring (Z.to_nat n) (Z.to_nat (k - n)) ds
  else if (-6 <? n) && (n <=? 0) then
    "0." ++ repeat "0" (Z.to_nat (- n)) ++ ds
  else
    let ex := n - 1 in
    let sign := if ex <? 0 then "-" else "+" in
    let mant := if k =? 1 then ds
                else substring 0 1 ds ++ "." ++
                     substring 1 (Z.to_nat (k - 1)) ds in
    mant ++ "e" ++ sign ++ Z_to_string (Z.abs ex).

(** [Number::toString(x)], radix 10. *)
Definition Number_toString (x : number) : string :=
  match Prim2SF x with
  | S754_nan => "NaN"
  | S754_zero _ => "0"
  | S754_infinity s => (if s then "-" else "") ++ "Infinity"
  | S754_finite s m e => (if s then "-" else "") ++ positive_to_string m e
  end.

(** *** Reading numbers *)

(** The [StrWhiteSpaceChar]s among the code units below 256: tab, line
    feed, vertical tab, form feed, carriage return, space and the
    no-break space. *)
Definition is_space (a : ascii) : bool :=
  let c := nat_of_ascii a in
  ((9 <=? c) && (c <=? 13))%nat || (c =? 32)%nat || (c =? 160)%nat.

Definition digit_of (a : ascii) : option Z :=
  let c := Z.of_nat (nat_of_ascii a) in
  if (48 <=? c) && (c <=? 57) then Some (c - 48) else None.

Definition hex_digit_of (a : ascii) : option Z :=
  let c := Z.of_nat (nat_of_ascii a) in
  if (48 <=? c) && (c <=? 57) then Some (c - 48)
  else if (65 <=? c) && (c <=? 70) then Some (c - 55)
  else if (97 <=? c) && (c <=? 102) then Some (c - 87)
  else None.

(** Leading white space removed. *)
Fixpoint trim_start (s : string) : string :=
  match s with
  | String a rest => if is_space a then trim_start rest else s
  | EmptyString => s
  end.

(** An optional sign: whether it is [-], and the rest. *)
Definition read_sign (s : string) : bool * string :=
  match s with
  | String "-" rest => (true, rest)
  | String "+" rest => (false, rest)
  | _ => (false, s)
  end.

(** The longest prefix of digits in the given alphabet: its value in base
    [radix] continuing from [acc], how many digits were read, the rest. *)
Fixpoint read_digits (digit : ascii -> option Z) (radix : Z)
    (s : string) (acc : Z) (count : Z) : Z * Z * string :=
  match s with
  | String a rest =>
      match digit a with
      | Some d => read_digits digit radix rest (acc * radix + d) (count + 1)
      | None => (acc, count, s)
      end
  | EmptyString => (acc, count, s)
  end.

(** An [ExponentPart], read only when a digit follows the [e]. *)
Definition read_exponent (s : string) : Z :=
  match s with
  | String a rest =>
      if Ascii.eqb a "e" || Ascii.eqb a "E" then
        let '(neg, rest') := read_sign rest in
        let '(ex, cnt, _) := read_digits digit_of 10 rest' 0 0 in
        if cnt =? 0 then 0 else if neg then - ex else ex
      else 0
  | EmptyString => 0
  end.

(** [parseFloat(s)]: the longest prefix of the trimmed string that is a
    [StrDecimalLiteral], rounded to the nearest Number; [NaN] when there
    is none. *)
Definition parseFloat (s : string) : number :=
  let '(neg, body) := read_sign (trim_start s) in
  if String.prefix "Infinity" body then
    (if neg then neg_infinity else infinity)
  else
    let '(ip, icnt, after_int) := read_digits digit_of 10 body 0 0 in
    let '(mant, fcnt, after_frac) :=
      match after_int with
      | String "." rest => read_digits digit_of 10 rest ip 0
      | _ => (ip, 0, after_int)
      end in
    if (icnt =? 0) && (fcnt =? 0) then nan
    else SF2Prim (dec2SF neg mant (read_exponent after_frac - fcnt)).

(** [parseInt(s)] with no radix argument: base 16 after a [0x] prefix,
    base 10 otherwise; [NaN] when no digit can be read. *)
Definition parseInt (s : string) : number :=
  let '(neg, body) := read_sign (trim_start s) in
  let '(radix, digit, digits) :=
    if String.prefix "0x" body || String.prefix "0X" body
    then (16, hex_digit_of, substring 2 (String.length body - 2) body)
    else (10, digit_of, body) in
  let '(v, cnt, _) := read_digits digit radix digits 0 0 in
  if cnt =? 0 then nan else SF2Prim (dec2SF neg v 0).

(** [Math.floor(x)]. *)
Definition Math_floor (x : number) : number :=
  match Prim2SF x with
  | S754_finite s m e =>
      if 0 <=? e then x
      else
        let q := (if s then Zneg m else Zpos m) / 2 ^ (- e) in
        SF2Prim (binary_normalize prec emax q 0 s)
  | _ => x
  end.

(** The Number of an integer literal of the source. *)
Definition of_Z (z : Z) : number := SF2Prim (binary_normalize prec emax z 0 false).

(** ** Values

    The dynamically typed values a configuration record is made of: what
    [JSON.parse] can return, and [undefined] for what is absent.  An object
    is the list of its own properties in insertion order. *)

Inductive value : Type :=
| VUndef
| VNull
| VBool (b : bool)
| VNum (n : number)
| VStr (s : string)
| VArr (items : list value)
| VObj (props : list (string * value)).

Arguments VNum n%_float.

Definition object := list (string * value).

(** [ToBoolean(v)]. *)
Definition truthy (v : value) : bool :=
  match v with
  | VUndef | VNull => false
  | VBool b => b
  | VNum n => negb (is_zero n || is_nan n)
  | VStr s => negb (String.eqb s "")
  | VArr _ | VObj _ => true
  end.

(** [a || b]. *)
Definition or (a b : value) : value := if truthy a then a else b.

(** [o[k]] on an object's own properties. *)
Fixpoint lookup (k : string) (o : object) : value :=
  match o with
  | [] => VUndef
  | (k', v) :: rest => if String.eqb k k' then v else lookup k rest
  end.

(** [v.k] for a receiver that is neither [null] nor [undefined] (the
    scripts read properties only behind a truthiness test of the receiver)
    and a key that no prototype defines: an object yields its own property,
    every other receiver [undefined]. *)
Definition prop (v : value) (k : string) : value :=
  match v with
  | VObj o => lookup k o
  | _ => VUndef
  end.

(** [a !== b] against a boolean literal. *)
Definition strict_neq_bool (v : value) (b : bool) : bool :=
  match v with
  | VBool b' => negb (Bool.eqb b' b)
  | _ => true
  end.

(** [ToString(v)], as template literals, string concatenation and DOM
    string attributes apply it. *)
Fixpoint ToString (v : value) : string :=
  match v with
  | VUndef => "undefined"
  | VNull => "null"
  | VBool true => "true"
  | VBool false => "false"
  | VNum n => Number_toString n
  | VStr s => s
  | VArr items =>
      join ","
        (List.map (fun x => match x with
                            | VUndef | VNull => ""
                            | _ => ToString x
                            end) items)
  | VObj _ => "[object Object]"
  end.

End JS.

(* ================================================================== *)
(** * The page *)
(* ================================================================== *)

(** The part of the document the scripts read and write through jQuery:
    for every selector the value of the control it names, its [checked]
    property and its inner HTML.  The markup itself (which control is a
    text input, a select or a checkbox) belongs to the templates and is
    not modelled: a control holds the string last written into it. *)

Module Page.

Record t : Type := {
  control_value : string -> string;
  control_checked : string -> bool;
  inner_html : string -> string
}.

(** Function update at one selector. *)
Definition upd {A : Type} (f : string -> A) (sel : string) (a : A)
  : string -> A :=
  fun k => if String.eqb k sel then a else f k.

(** The string jQuery's [.val(v)] stores: [null] and [undefined] count as
    the empty string, anything else is converted by [ToString]. *)
Definition val_string (v : JS.value) : string :=
  match v with
  | JS.VUndef | JS.VNull => ""
  | _ => JS.ToString v
  end.

(** [$(sel).val(v)]. *)
Definition val (sel : string) (v : JS.value) (p : t) : t :=
  {| control_value := upd (control_value p) sel (val_string v);
     control_checked := control_checked p;
     inner_html := inner_html p |}.

(** [$(sel).prop('checked', v)]. *)
Definition prop_checked (sel : string) (v : JS.value) (p : t) : t :=
  {| control_value := control_value p;
     control_checked := upd (control_checked p) sel (JS.truthy v);
     inner_html := inner_html p |}.

(** [$(sel).html(s)]. *)
Definition set_html (sel : string) (s : string) (p : t) : t :=
  {| control_value := control_value p;
     control_checked := control_checked p;
     inner_html := upd (inner_html p) sel s |}.

(** [$(sel).val()]. *)
Definition get_val (p : t) (sel : string) : string := control_value p sel.

(** [$(sel).is(':checked')]. *)
Definition is_checked (p : t) (sel : string) : bool := control_checked p sel.

(** Statements on the page, in sequence, and under a condition. *)
Definition stmt := t -> t.

Definition block (body : list stmt) : stmt :=
  fun p => fold_left (fun q s => s q) body p.

Definition when (c : bool) (body : stmt) : stmt :=
  fun p => if c then body p else p.

(** A statement that can end by raising an exception, which it then does
    before it has written anything: [None]. *)
Definition raising := t -> option t.

(** [s; rest] in a function body, for a statement [s] that can raise:
    when it does, the function ends there with the exception and [rest]
    is not run.  The page is the one the function leaves either way. *)
Definition and_then (s : raising) (rest : stmt) : stmt :=
  fun p => match s p with
           | Some q => rest q
           | None => p
           end.

(** Calls in a row, up to the first that raises. *)
Fixpoint calls (body : list raising) : stmt :=
  match body with
  | [] => fun p => p
  | s :: rest => and_then s (calls rest)
  end.

End Page.

(* ================================================================== *)
(** * config.js *)
(* ================================================================== *)

Module Config.
Import JS Page.

(** One row of the provider limits table. *)
Record limits : Type := {
  requests : number;
  input : string;
  output : string;
  tier : string
}.

(** [providerLimits], the object literal of [updateProviderLimitsDisplay]. *)
Definition providerLimits : list (string * list (string * limits)) :=
  [ ("gemini",
      [ ("free",
          {| requests := 150; input := "1M"; output := "1M"; tier := "Free" |});
        ("pay_as_you_go",
          {| requests := 150; input := "1M"; output := "1M";
             tier := "Pay-as-you-go" |});
        ("enterprise",
          {| requests := 150; input := "1M"; output := "1M";
             tier := "Enterprise" |}) ]);
    ("claude",
      [ ("standard",
          {| requests := 50; input := "20K"; output := "8K";
             tier := "Standard" |});
        ("premium",
          {| requests := 500; input := "200K"; output := "100K";
             tier := "Premium" |}) ]);
    ("openai",
      [ ("standard",
          {| requests := 500; input := "200K"; output := "100K";
             tier := "Standard" |});
        ("premium",
          {| requests := 10000; input := "2M"; output := "1M";
             tier := "Premium" |}) ]) ].

(** Own-property lookup in an object literal of the source. *)
Fixpoint entry {A : Type} (k : string) (o : list (string * A)) : option A :=
  match o with
  | [] => None
  | (k', a) :: rest => if String.eqb k k' then Some a else entry k rest
  end.

(** *** What the table inherits

    [providerLimits] and the three objects in it are object literals: a
    key that is not one of their own is looked up in [Object.prototype],
    and a key read from one of the functions found there in the function
    itself, in [Function.prototype] and in [Object.prototype]. *)

Definition mem (k : string) (names : list string) : bool :=
  existsb (String.eqb k) names.

(** The properties of [Object.prototype] (ECMA-262, Properties of the
    Object Prototype Object, with the legacy accessor methods): the
    constructor [Object], ten methods and the accessor [__proto__].  Read
    from an object literal, each gives a truthy value. *)
Definition Object_prototype : list string :=
  [ "constructor"; "hasOwnProperty"; "isPrototypeOf"; "propertyIsEnumerable";
    "toLocaleString"; "toString"; "valueOf";
    "__defineGetter__"; "__defineSetter__";
    "__lookupGetter__"; "__lookupSetter__"; "__proto__" ].

(** The methods of [Function.prototype] (ECMA-262, Properties of the
    Function Prototype Object). *)
Definition Function_prototype : list string :=
  [ "apply"; "bind"; "call"; "constructor"; "toString" ].

(** The methods of the constructor [Object] (ECMA-262, Properties of the
    Object Constructor, fifteenth edition). *)
Definition Object_methods : list string :=
  [ "assign"; "create"; "defineProperties"; "defineProperty"; "entries";
    "freeze"; "fromEntries"; "getOwnPropertyDescriptor";
    "getOwnPropertyDescriptors"; "getOwnPropertyNames";
    "getOwnPropertySymbols"; "getPrototypeOf"; "groupBy"; "hasOwn"; "is";
    "isExtensible"; "isFrozen"; "isSealed"; "keys"; "preventExtensions";
    "seal"; "setPrototypeOf"; "values" ].

(** The [length] of the function [Object.prototype] holds under a name:
    the number of its parameters. *)
Definition function_length (name : string) : Z :=
  if mem name ["toLocaleString"; "toString"; "valueOf"] then 0
  else if mem name ["__defineGetter__"; "__defineSetter__"] then 2
  else 1.

(** Reading [Object.prototype[holder][k]], for [holder] one of the names
    above: whether the value is truthy, or [None] when the read raises.
    Under [__proto__] the holder is [Object.prototype] itself, whose own
    [__proto__] is [null].  Under the other names it is a built-in
    function: its [caller] and [arguments] are the accessors of
    [Function.prototype] that raise a TypeError (ECMA-262,
    AddRestrictedFunctionProperties); it
    has a non-empty [name], its [length], the methods of
    [Function.prototype] and of [Object.prototype] and, for the
    constructor [Object], its [prototype] and its own methods. *)
Definition builtin_member (holder k : string) : option bool :=
  if String.eqb holder "__proto__" then
    Some (mem k Object_prototype && negb (String.eqb k "__proto__"))
  else if mem k ["caller"; "arguments"] then None
  else
    Some (String.eqb k "name"
          || (String.eqb k "length" && (0 <? function_length holder))
          || mem k Function_prototype
          || mem k Object_prototype
          || (String.eqb holder "constructor"
              && (String.eqb k "prototype" || mem k Object_methods))).

(** How the lookup [providerLimits[provider] &&
    providerLimits[provider][tier]] ends, and what the [limits] variable
    of the source then holds: the read raised a TypeError; nothing truthy
    was found and [limits] is still [null]; [limits] is a row of the
    table; [limits] is a value that comes from the prototypes (a built-in
    function or object, the name or the length of one). *)
Inductive lookup_result : Type :=
| TypeError
| Nothing
| Row (l : limits)
| Builtin.

Definition find_limits (provider tier : string) : lookup_result :=
  match entry provider providerLimits with
  | Some tiers =>
      match entry tier tiers with
      | Some l => Row l
      | None => if mem tier Object_prototype then Builtin else Nothing
      end
  | None =>
      if mem provider Object_prototype then
        match builtin_member provider tier with
        | Some true => Builtin
        | Some false => Nothing
        | None => TypeError
        end
      else Nothing
  end.

(** [Math.floor(limits.requests * 0.8)]. *)
Definition effectiveRequests (l : limits) : number :=
  Math_floor (requests l * 0.8)%float.

Definition indent (n : nat) : string := JS.repeat " " n.

(** The template literal rendered when something is found, with the
    strings of its five interpolations. *)
Definition limits_template (requests effective input output tier : string)
  : string :=
  nl ++ indent 12 ++ "<div class=" ++ dq ++ "row" ++ dq ++ ">" ++
  nl ++ indent 16 ++ "<div class=" ++ dq ++ "col-6" ++ dq ++ ">" ++
  nl ++ indent 20 ++ "<small><strong>Requests/Min:</strong><br>"
     ++ requests ++ " (using " ++ effective ++ ")</small>" ++
  nl ++ indent 16 ++ "</div>" ++
  nl ++ indent 16 ++ "<div class=" ++ dq ++ "col-6" ++ dq ++ ">" ++
  nl ++ indent 20 ++ "<small><strong>Input Tokens:</strong><br>"
     ++ input ++ "</small>" ++
  nl ++ indent 16 ++ "</div>" ++
  nl ++ indent 12 ++ "</div>" ++
  nl ++ indent 12 ++ "<div class=" ++ dq ++ "row mt-1" ++ dq ++ ">" ++
  nl ++ indent 16 ++ "<div class=" ++ dq ++ "col-6" ++ dq ++ ">" ++
  nl ++ indent 20 ++ "<small><strong>Output Tokens:</strong><br>"
     ++ output ++ "</small>" ++
  nl ++ indent 16 ++ "</div>" ++
  nl ++ indent 16 ++ "<div class=" ++ dq ++ "col-6" ++ dq ++ ">" ++
  nl ++ indent 20 ++ "<small><strong>Tier:</strong><br>"
     ++ tier ++ "</small>" ++
  nl ++ indent 16 ++ "</div>" ++
  nl ++ indent 12 ++ "</div>" ++
  nl ++ indent 8.

(** The template for a row of the table. *)
Definition limits_html (l : limits) : string :=
  limits_template (Number_toString (requests l))
    (Number_toString (effectiveRequests l)) (input l) (output l) (tier l).

(** The template for a value from the prototypes: it has none of the
    four properties, each reads [undefined], and [undefined * 0.8] is
    [NaN]. *)
Definition builtin_html : string :=
  limits_template (ToString VUndef)
    (Number_toString (Math_floor (PrimFloat.nan * 0.8)%float))
    (ToString VUndef) (ToString VUndef) (ToString VUndef).

(** The placeholder shown when no entry matches. *)
Definition limits_placeholder : string :=
  "<small class=" ++ dq ++ "text-muted" ++ dq
    ++ ">Select provider and tier to see limits</small>".

(** [updateProviderLimitsDisplay()]. *)
Definition updateProviderLimitsDisplay : raising := fun p =>
  let provider := get_val p "#llm-type" in
  let tier := get_val p "#provider-tier" in
  match find_limits provider tier with
  | TypeError => None
  | Row l => Some (set_html "#provider-limits-display" (limits_html l) p)
  | Builtin => Some (set_html "#provider-limits-display" builtin_html p)
  | Nothing =>
      Some (set_html "#provider-limits-display" limits_placeholder p)
  end.

(** [applyConfigToForm(config)]: the page it leaves, whether it returns
    or ends with the exception of the limits lookup. *)
Definition applyConfigToForm (config : object) : stmt :=
  let llm := lookup "llm" config in
  let current_provider_tier := lookup "current_provider_tier" config in
  let user_overrides := lookup "user_overrides" config in
  let flow_control := lookup "flow_control" config in
  let docstring_options := lookup "docstring_options" config in
  block [
    (* Set LLM configuration *)
    when (truthy llm) (block [
      val "#llm-type" (or (prop llm "type") (VStr "gemini"));
      val "#llm-api-key" (or (prop llm "api_key") (VStr ""));
      val "#llm-model" (or (prop llm "model") (VStr "gemini-2.5-pro"));
      val "#llm-temperature" (or (prop llm "temperature") (VNum 0.1));
      val "#llm-max-tokens" (or (prop llm "max_tokens") (VNum 16384)) ]);
    (* Set provider tier and user overrides *)
    when (truthy current_provider_tier)
      (val "#provider-tier" current_provider_tier);
    when (truthy user_overrides) (block [
      prop_checked "#enable-conservative-limits"
        (VBool (strict_neq_bool
                  (prop user_overrides "enable_conservative_limits") false));
      val "#max-components-per-minute"
        (or (prop user_overrides "max_components_per_minute") (VNum 8));
      val "#delay-between-requests"
        (or (prop user_overrides "delay_between_requests") (VNum 2000));
      prop_checked "#enable-batch-processing"
        (VBool (strict_neq_bool
                  (prop user_overrides "enable_batch_processing") false));
      val "#batch-size" (or (prop user_overrides "batch_size") (VNum 3)) ]);
    (* Update provider limits display *)
    and_then updateProviderLimitsDisplay (block [
      (* Set flow control configuration *)
      when (truthy flow_control) (block [
        val "#max-reader-search-attempts"
          (or (prop flow_control "max_reader_search_attempts") (VNum 2));
        val "#max-verifier-rejections"
          (or (prop flow_control "max_verifier_rejections") (VNum 1));
        val "#status-sleep-time"
          (or (prop flow_control "status_sleep_time") (VNum 1)) ]);
      (* Set docstring options *)
      when (truthy docstring_options)
        (prop_checked "#overwrite-docstrings"
           (or (prop docstring_options "overwrite_docstrings")
               (VBool false)))
    ])
  ].

(** [buildConfigFromForm()]. *)
Definition buildConfigFromForm (p : Page.t) : value :=
  VObj [
    ("llm", VObj [
      ("type", VStr (get_val p "#llm-type"));
      ("api_key", VStr (get_val p "#llm-api-key"));
      ("model", VStr (get_val p "#llm-model"));
      ("temperature", VNum (parseFloat (get_val p "#llm-temperature")));
      ("max_tokens", VNum (parseInt (get_val p "#llm-max-tokens"))) ]);
    ("flow_control", VObj [
      ("max_reader_search_attempts",
        VNum (parseInt (get_val p "#max-reader-search-attempts")));
      ("max_verifier_rejections",
        VNum (parseInt (get_val p "#max-verifier-rejections")));
      ("status_sleep_time",
        VNum (parseFloat (get_val p "#status-sleep-time"))) ]);
    ("docstring_options", VObj [
      ("overwrite_docstrings", VBool (is_checked p "#overwrite-docstrings")) ]);
    ("current_provider_tier", VStr (get_val p "#provider-tier"));
    ("user_overrides", VObj [
      ("enable_conservative_limits",
        VBool (is_checked p "#enable-conservative-limits"));
      ("max_components_per_minute",
        VNum (parseInt (get_val p "#max-components-per-minute")));
      ("delay_between_requests",
        VNum (parseInt (get_val p "#delay-between-requests")));
      ("enable_batch_processing",
        VBool (is_checked p "#enable-batch-processing"));
      ("batch_size", VNum (parseInt (get_val p "#batch-size"))) ])
  ].

(** The outcome of the GET request of [loadDefaultConfig]: the parsed
    configuration record, or the error the request ended with. *)
Inductive response : Type :=
| Success (config : object)
| Failure (error : string).

(** What [loadDefaultConfig] leaves behind: the page, the calls of
    [showMessage(kind, text)] and the lines of [console.error]. *)
Record loaded : Type := {
  loaded_page : Page.t;
  shown : list (string * string);
  logged : list string
}.

(** [loadDefaultConfig()], once the request has ended with [r]. *)
Definition loadDefaultConfig (r : response) (p : Page.t) : loaded :=
  match r with
  | Success config =>
      {| loaded_page := applyConfigToForm config p;
         shown := [];
         logged := [] |}
  | Failure error =>
      {| loaded_page := p;
         shown := [("warning",
                    "Failed to load default configuration. Using fallback values.")];
         logged := ["Error loading default configuration: " ++ error] |}
  end.

(** [initProviderLimitsHandlers()]: the [change] handlers it binds, each
    with the selector of its control, in binding order. *)
Definition initProviderLimitsHandlers : list (string * raising) :=
  [ (* Update limits display when provider or tier changes *)
    ("#llm-type", updateProviderLimitsDisplay);
    ("#provider-tier", updateProviderLimitsDisplay);
    (* Update limits display when conservative settings change *)
    ("#enable-conservative-limits", updateProviderLimitsDisplay) ].

(** A [change] event on the control [sel]: the handlers bound to it run
    in binding order, up to the first that raises. *)
Definition change (handlers : list (string * raising)) (sel : string)
  : stmt :=
  calls (List.map snd
           (List.filter (fun h => String.eqb (fst h) sel) handlers)).

End Config.

(* ================================================================== *)
(** * config.js, first revision *)
(* ================================================================== *)

(** The source holds an earlier revision of the same script, without the
    provider tier, the user overrides and the limits display, and with
    other fallbacks for the provider, the model and the token limit. *)

Module ConfigLegacy.
Import JS Page.

(** [applyConfigToForm(config)]. *)
Definition applyConfigToForm (config : object) : stmt :=
  let llm := lookup "llm" config in
  let flow_control := lookup "flow_control" config in
  let docstring_options := lookup "docstring_options" config in
  block [
    (* Set LLM configuration *)
    when (truthy llm) (block [
      val "#llm-type" (or (prop llm "type") (VStr "claude"));
      val "#llm-api-key" (or (prop llm "api_key") (VStr ""));
      val "#llm-model" (or (prop llm "model") (VStr "claude-3-5-haiku-latest"));
      val "#llm-temperature" (or (prop llm "temperature") (VNum 0.1));
      val "#llm-max-tokens" (or (prop llm "max_tokens") (VNum 4096)) ]);
    (* Set flow control configuration *)
    when (truthy flow_control) (block [
      val "#max-reader-search-attempts"
        (or (prop flow_control "max_reader_search_attempts") (VNum 2));
      val "#max-verifier-rejections"
        (or (prop flow_control "max_verifier_rejections") (VNum 1));
      val "#status-sleep-time"
        (or (prop flow_control "status_sleep_time") (VNum 1)) ]);
    (* Set docstring options *)
    when (truthy docstring_options)
      (prop_checked "#overwrite-docstrings"
         (or (prop docstring_options "overwrite_docstrings") (VBool false)))
  ].

(** [buildConfigFromForm()]. *)
Definition buildConfigFromForm (p : Page.t) : value :=
  VObj [
    ("llm", VObj [
      ("type", VStr (get_val p "#llm-type"));
      ("api_key", VStr (get_val p "#llm-api-key"));
      ("model", VStr (get_val p "#llm-model"));
      ("temperature", VNum (parseFloat (get_val p "#llm-temperature")));
      ("max_tokens", VNum (parseInt (get_val p "#llm-max-tokens"))) ]);
    ("flow_control", VObj [
      ("max_reader_search_attempts",
        VNum (parseInt (get_val p "#max-reader-search-attempts")));
      ("max_verifier_rejections",
        VNum (parseInt (get_val p "#max-verifier-rejections")));
      ("status_sleep_time",
        VNum (parseFloat (get_val p "#status-sleep-time"))) ]);
    ("docstring_options", VObj [
      ("overwrite_docstrings", VBool (is_checked p "#overwrite-docstrings")) ])
  ].

End ConfigLegacy.

(* ================================================================== *)
(** * log_export.js *)
(* ================================================================== *)

Module LogExport.
Import JS.

(** ** The tracked data *)

(** An entry of [logData.logs]. *)
Module LogEntry.
Record t : Type := {
  timestamp : string;
  level : string;
  message : string;
  details : value
}.
End LogEntry.

(** An entry of [logData.apiCalls]. *)
Module ApiEntry.
Record t : Type := {
  timestamp : string;
  provider : string;
  model : string;
  inputTokens : number;
  outputTokens : number;
  duration : number;
  error : value
}.
End ApiEntry.

(** An entry of [logData.rateLimitEvents]. *)
Module RateLimitEntry.
Record t : Type := {
  timestamp : string;
  type : string;
  provider : string;
  limitType : string;
  currentUsage : number;
  limit : number;
  message : string;
  level : string
}.
End RateLimitEntry.

(** [logData.stats].  The four counters are Numbers, binary64 values like
    every Number of the language: the script starts them at [0], [++] adds
    [1] in binary64, and [updateProcessingStats] can put any Number in
    their place.  [startTime] is a [Date] held by its string form,
    [endTime] an ISO string; [None] is [null]. *)
Module Stats.
Record t : Type := {
  startTime : option string;
  endTime : option string;
  totalComponents : number;
  processedComponents : number;
  errors : number;
  warnings : number
}.
End Stats.

(** The global [logData]. *)
Module LogData.
Record t : Type := {
  logs : list LogEntry.t;
  apiCalls : list ApiEntry.t;
  rateLimitEvents : list RateLimitEntry.t;
  config : value;
  stats : Stats.t
}.

(** Its value when the script is loaded. *)
Definition initial : t := {|
  logs := [];
  apiCalls := [];
  rateLimitEvents := [];
  config := VNull;
  stats := {| Stats.startTime := None;
              Stats.endTime := None;
              Stats.totalComponents := 0%float;
              Stats.processedComponents := 0%float;
              Stats.errors := 0%float;
              Stats.warnings := 0%float |}
|}.
End LogData.

(** What the script does to the world outside the page's controls and its
    own data: a file handed to the browser for download, the export modal
    closed, a message shown by [showMessage(kind, text)]. *)
Inductive effect : Type :=
| Download (content filename mimeType : string)
| ModalHide
| ShowMessage (kind text : string).

(** Everything an event handler of the script can read or change; the
    effects are listed in the order they happened. *)
Record state : Type := {
  data : LogData.t;
  page : Page.t;
  effects : list effect
}.

(** ** Recording *)

(** [counter++] on a Number: the binary64 sum of the counter and [1]. *)
Definition incr (counter : number) : number := (counter + 1)%float.

(** [addLogEntry(level, message, details)] at clock reading [now]. *)
Definition addLogEntry (now : string) (level message : string)
    (details : value) (d : LogData.t) : LogData.t :=
  let logEntry := {| LogEntry.timestamp := now;
                     LogEntry.level := level;
                     LogEntry.message := message;
                     LogEntry.details := details |} in
  let st := LogData.stats d in
  {| LogData.logs := LogData.logs d ++ [logEntry];
     LogData.apiCalls := LogData.apiCalls d;
     LogData.rateLimitEvents := LogData.rateLimitEvents d;
     LogData.config := LogData.config d;
     LogData.stats :=
       (* Update statistics *)
       if String.eqb level "ERROR" then
         {| Stats.startTime := Stats.startTime st;
            Stats.endTime := Stats.endTime st;
            Stats.totalComponents := Stats.totalComponents st;
            Stats.processedComponents := Stats.processedComponents st;
            Stats.errors := incr (Stats.errors st);
            Stats.warnings := Stats.warnings st |}
       else if String.eqb level "WARNING" then
         {| Stats.startTime := Stats.startTime st;
            Stats.endTime := Stats.endTime st;
            Stats.totalComponents := Stats.totalComponents st;
            Stats.processedComponents := Stats.processedComponents st;
            Stats.errors := Stats.errors st;
            Stats.warnings := incr (Stats.warnings st) |}
       else st |}.

(** [addAPICallEntry(provider, model, inputTokens, outputTokens, duration,
    error)]. *)
Definition addAPICallEntry (now : string) (provider model : string)
    (inputTokens outputTokens duration : number) (error : value)
    (d : LogData.t) : LogData.t :=
  let apiEntry := {| ApiEntry.timestamp := now;
                     ApiEntry.provider := provider;
                     ApiEntry.model := model;
                     ApiEntry.inputTokens := inputTokens;
                     ApiEntry.outputTokens := outputTokens;
                     ApiEntry.duration := duration;
                     ApiEntry.error := error |} in
  {| LogData.logs := LogData.logs d;
     LogData.apiCalls := LogData.apiCalls d ++ [apiEntry];
     LogData.rateLimitEvents := LogData.rateLimitEvents d;
     LogData.config := LogData.config d;
     LogData.stats := LogData.stats d |}.

(** [addRateLimitEvent(type, provider, limitType, currentUsage, limit,
    message)]: the clock is read once for the event ([now]) and once more
    inside [addLogEntry] ([now_log]). *)
Definition addRateLimitEvent (now now_log : string)
    (type provider limitType : string) (currentUsage limit : number)
    (message : string) (d : LogData.t) : LogData.t :=
  let rateLimitEntry :=
    {| RateLimitEntry.timestamp := now;
       RateLimitEntry.type := type;
       RateLimitEntry.provider := provider;
       RateLimitEntry.limitType := limitType;
       RateLimitEntry.currentUsage := currentUsage;
       RateLimitEntry.limit := limit;
       RateLimitEntry.message := message;
       RateLimitEntry.level :=
         if String.eqb type "RATE_LIMIT_HIT" then "WARNING" else "INFO" |} in
  let d1 :=
    {| LogData.logs := LogData.logs d;
       LogData.apiCalls := LogData.apiCalls d;
       LogData.rateLimitEvents := LogData.rateLimitEvents d ++ [rateLimitEntry];
       LogData.config := LogData.config d;
       LogData.stats := LogData.stats d |} in
  (* Also add as a log entry *)
  addLogEntry now_log (RateLimitEntry.level rateLimitEntry)
    ("Rate Limit Event: " ++ message) VNull d1.

(** [updateConfigForExport(config)]. *)
Definition updateConfigForExport (config : value) (d : LogData.t)
  : LogData.t :=
  {| LogData.logs := LogData.logs d;
     LogData.apiCalls := LogData.apiCalls d;
     LogData.rateLimitEvents := LogData.rateLimitEvents d;
     LogData.config := config;
     LogData.stats := LogData.stats d |}.

(** [markProcessingComplete()]. *)
Definition markProcessingComplete (now : string) (d : LogData.t)
  : LogData.t :=
  let st := LogData.stats d in
  {| LogData.logs := LogData.logs d;
     LogData.apiCalls := LogData.apiCalls d;
     LogData.rateLimitEvents := LogData.rateLimitEvents d;
     LogData.config := LogData.config d;
     LogData.stats :=
       {| Stats.startTime := Stats.startTime st;
          Stats.endTime := Some now;
          Stats.totalComponents := Stats.totalComponents st;
          Stats.processedComponents := Stats.processedComponents st;
          Stats.errors := Stats.errors st;
          Stats.warnings := Stats.warnings st |} |}.

(** ** Clearing *)

(** The markup [clearLogs] puts into [#log-content]. *)
Definition no_logs_html : string :=
  nl ++ Config.indent 12 ++ "<div class=" ++ dq ++ "text-center py-4" ++ dq ++ ">" ++
  nl ++ Config.indent 16 ++ "<i class=" ++ dq
     ++ "fas fa-clipboard-list fa-2x text-muted mb-2" ++ dq ++ "></i>" ++
  nl ++ Config.indent 16 ++ "<p class=" ++ dq ++ "text-muted" ++ dq
     ++ ">No logs yet</p>" ++
  nl ++ Config.indent 16 ++ "<small class=" ++ dq ++ "text-muted" ++ dq
     ++ ">Processing logs will appear here</small>" ++
  nl ++ Config.indent 12 ++ "</div>" ++
  nl ++ Config.indent 8.

(** [clearLogs()]; [confirmed] is the user's answer to the [confirm]
    dialog. *)
Definition clearLogs (confirmed : bool) (s : state) : state :=
  if confirmed then
    let d := data s in
    let st := LogData.stats d in
    {| page := Page.set_html "#log-content" no_logs_html (page s);
       (* Clear log data *)
       data :=
         {| LogData.logs := [];
            LogData.apiCalls := [];
            LogData.rateLimitEvents := [];
            LogData.config := LogData.config d;
            LogData.stats :=
              {| Stats.startTime := Stats.startTime st;
                 Stats.endTime := Stats.endTime st;
                 Stats.totalComponents := Stats.totalComponents st;
                 Stats.processedComponents := Stats.processedComponents st;
                 Stats.errors := 0%float;
                 Stats.warnings := 0%float |} |};
       effects := effects s ++ [ShowMessage "info" "Logs cleared successfully"] |}
  else s.

(** ** Export *)

(** [exportData.metadata]. *)
Record metadata : Type := {
  exportTime : string;
  format : string;
  version : string
}.

(** The snapshot [exportData]: a section the user did not check is a key
    the object does not have, [None]. *)
Module ExportData.
Record t : Type := {
  metadata_ : metadata;
  logs : option (list LogEntry.t);
  apiCalls : option (list ApiEntry.t);
  rateLimitEvents : option (list RateLimitEntry.t);
  config : option value;
  stats : option Stats.t
}.
End ExportData.

(** [a || 'fallback'] on a string that may be [null]. *)
Definition or_string (a : option string) (fallback : string) : string :=
  match a with
  | Some s => if String.eqb s "" then fallback else s
  | None => fallback
  end.

(** [v?.k]. *)
Definition prop_opt (v : value) (k : string) : value :=
  match v with
  | VUndef | VNull => VUndef
  | _ => prop v k
  end.

(** [list.forEach(x => { acc += line(x) })]. *)
Definition forEach_append {A : Type} (line : A -> string) (l : list A)
    (acc : string) : string :=
  fold_left (fun text x => text ++ line x) l acc.

(** The lines of one record in the text format. *)
Definition text_of_log (log : LogEntry.t) : string :=
  "[" ++ LogEntry.timestamp log ++ "] " ++ LogEntry.level log ++ ": "
      ++ LogEntry.message log ++ nl.

Definition text_of_call (call : ApiEntry.t) : string :=
  "[" ++ ApiEntry.timestamp call ++ "] " ++ ApiEntry.provider call ++ " - "
      ++ ApiEntry.model call ++ nl ++
  "  Request: " ++ Number_toString (ApiEntry.inputTokens call) ++ " tokens" ++ nl ++
  "  Response: " ++ Number_toString (ApiEntry.outputTokens call) ++ " tokens" ++ nl ++
  "  Duration: " ++ Number_toString (ApiEntry.duration call) ++ "ms" ++ nl ++
  (if truthy (ApiEntry.error call)
   then "  Error: " ++ ToString (ApiEntry.error call) ++ nl
   else "") ++
  nl.

Definition text_of_event (event : RateLimitEntry.t) : string :=
  "[" ++ RateLimitEntry.timestamp event ++ "] " ++ RateLimitEntry.type event
      ++ ": " ++ RateLimitEntry.message event ++ nl ++
  "  Provider: " ++ RateLimitEntry.provider event ++ nl ++
  "  Limit: " ++ RateLimitEntry.limitType event ++ nl ++
  "  Current Usage: " ++ Number_toString (RateLimitEntry.currentUsage event)
      ++ "/" ++ Number_toString (RateLimitEntry.limit event) ++ nl ++ nl.

(** [generateTextExport(data)]. *)
Definition generateTextExport (data : ExportData.t) : string :=
  let m := ExportData.metadata_ data in
  let text :=
    "Scribe Processing Logs Export" ++ nl ++
    "Generated: " ++ exportTime m ++ nl ++
    "Format: " ++ format m ++ nl ++
    "Version: " ++ version m ++ nl ++
    nl ++
    JS.repeat "=" 50 ++ nl ++
    nl in
  let text :=
    match ExportData.config data with
    | Some c =>
        if truthy c then
          text ++
          "CONFIGURATION" ++ nl ++
          JS.repeat "=" 20 ++ nl ++
          "Provider: "
            ++ ToString (or (prop_opt (prop c "llm") "type") (VStr "Unknown")) ++ nl ++
          "Model: "
            ++ ToString (or (prop_opt (prop c "llm") "model") (VStr "Unknown")) ++ nl ++
          "API Tier: "
            ++ ToString (or (prop c "current_provider_tier") (VStr "Unknown")) ++ nl ++
          nl
        else text
    | None => text
    end in
  let text :=
    match ExportData.stats data with
    | Some st =>
        text ++
        "PROCESSING STATISTICS" ++ nl ++
        JS.repeat "=" 25 ++ nl ++
        "Start Time: " ++ or_string (Stats.startTime st) "Unknown" ++ nl ++
        "End Time: " ++ or_string (Stats.endTime st) "In Progress" ++ nl ++
        "Total Components: " ++ Number_toString (Stats.totalComponents st) ++ nl ++
        "Processed Components: "
          ++ Number_toString (Stats.processedComponents st) ++ nl ++
        "Errors: " ++ Number_toString (Stats.errors st) ++ nl ++
        "Warnings: " ++ Number_toString (Stats.warnings st) ++ nl ++
        nl
    | None => text
    end in
  let text :=
    match ExportData.logs data with
    | Some ((_ :: _) as logs) =>
        forEach_append text_of_log logs
          (text ++ "PROCESSING LOGS" ++ nl ++ JS.repeat "=" 20 ++ nl)
        ++ nl
    | _ => text
    end in
  let text :=
    match ExportData.apiCalls data with
    | Some ((_ :: _) as calls) =>
        forEach_append text_of_call calls
          (text ++ "API CALLS" ++ nl ++ JS.repeat "=" 15 ++ nl)
    | _ => text
    end in
  let text :=
    match ExportData.rateLimitEvents data with
    | Some ((_ :: _) as events) =>
        forEach_append text_of_event events
          (text ++ "RATE LIMIT EVENTS" ++ nl ++ JS.repeat "=" 20 ++ nl)
    | _ => text
    end in
  text.

(** A template literal between double quotes, as every CSV cell is
    written. *)
Definition quoted (s : string) : string := dq ++ s ++ dq.

(** The [replace] of the CSV rows: every double quote in [s] doubled. *)
Definition escape_quotes (s : string) : string :=
  replace_char (ascii_of_nat 34) (dq ++ dq) s.

(** [headers] of [generateCSVExport]. *)
Definition headers : list string :=
  ["Timestamp"; "Type"; "Level"; "Provider"; "Model"; "Message"; "Details"].

(** The [row] arrays of [generateCSVExport], joined and terminated. *)
Definition csv_of_log (log : LogEntry.t) : string :=
  join "," [
    quoted (LogEntry.timestamp log);
    quoted "Log";
    quoted (LogEntry.level log);
    quoted "";
    quoted "";
    quoted (escape_quotes (LogEntry.message log));
    quoted ""
  ] ++ nl.

Definition csv_of_call (call : ApiEntry.t) : string :=
  join "," [
    quoted (ApiEntry.timestamp call);
    quoted "API Call";
    quoted "INFO";
    quoted (ApiEntry.provider call);
    quoted (ApiEntry.model call);
    quoted ("API Call - " ++ Number_toString (ApiEntry.inputTokens call)
              ++ " input, " ++ Number_toString (ApiEntry.outputTokens call)
              ++ " output tokens");
    quoted ("Duration: " ++ Number_toString (ApiEntry.duration call) ++ "ms"
              ++ (if truthy (ApiEntry.error call)
                  then ", Error: " ++ ToString (ApiEntry.error call)
                  else ""))
  ] ++ nl.

Definition csv_of_event (event : RateLimitEntry.t) : string :=
  join "," [
    quoted (RateLimitEntry.timestamp event);
    quoted "Rate Limit";
    quoted (RateLimitEntry.level event);
    quoted (RateLimitEntry.provider event);
    quoted "";
    quoted (escape_quotes (RateLimitEntry.message event));
    quoted (RateLimitEntry.limitType event ++ ": "
              ++ Number_toString (RateLimitEntry.currentUsage event) ++ "/"
              ++ Number_toString (RateLimitEntry.limit event))
  ] ++ nl.

(** [generateCSVExport(data)]. *)
Definition generateCSVExport (data : ExportData.t) : string :=
  let csv := "" in
  (* CSV Headers *)
  let csv := csv ++ join "," headers ++ nl in
  (* Process logs *)
  let csv :=
    match ExportData.logs data with
    | Some ((_ :: _) as logs) => forEach_append csv_of_log logs csv
    | _ => csv
    end in
  (* Process API calls *)
  let csv :=
    match ExportData.apiCalls data with
    | Some ((_ :: _) as calls) => forEach_append csv_of_call calls csv
    | _ => csv
    end in
  (* Process rate limit events *)
  let csv :=
    match ExportData.rateLimitEvents data with
    | Some ((_ :: _) as events) => forEach_append csv_of_event events csv
    | _ => csv
    end in
  csv.

(** [downloadFile(content, filename, mimeType)]: the blob, the temporary
    link and its click are one hand-over of a file to the browser. *)
Definition downloadFile (content filename mimeType : string) : list effect :=
  [Download content filename mimeType].

(** The default export name,
    [scribe-logs-] followed by the ISO time with [:] and [.] turned into
    [-] and the last five characters cut. *)
Definition default_filename (now : string) : string :=
  "scribe-logs-" ++ slice_drop_last 5 (replace_colon_dot now).

Section WithSerializer.

(** [JSON.stringify(exportData, null, 2)], the runtime's serializer of the
    snapshot. *)
Variable JSON_stringify : ExportData.t -> string.

(** The snapshot [exportLogs] collects from the checkboxes. *)
Definition collect (now_export : string) (p : Page.t) (d : LogData.t)
  : ExportData.t :=
  {| ExportData.metadata_ :=
       {| exportTime := now_export;
          format := Page.get_val p "#export-format";
          version := "1.0" |};
     ExportData.logs :=
       if Page.is_checked p "#include-logs"
       then Some (LogData.logs d) else None;
     ExportData.apiCalls :=
       if Page.is_checked p "#include-api-calls"
       then Some (LogData.apiCalls d) else None;
     ExportData.rateLimitEvents :=
       if Page.is_checked p "#include-rate-limits"
       then Some (LogData.rateLimitEvents d) else None;
     ExportData.config :=
       if Page.is_checked p "#include-config"
       then Some (LogData.config d) else None;
     ExportData.stats :=
       if Page.is_checked p "#include-stats"
       then Some (LogData.stats d) else None |}.

(** [exportLogs()]: the clock is read for the default file name
    ([now_name], used when the name field is empty) and for the export
    time ([now_export]). *)
Definition exportLogs (now_name now_export : string) (s : state) : state :=
  let format := Page.get_val (page s) "#export-format" in
  let filename :=
    let typed := Page.get_val (page s) "#export-filename" in
    if String.eqb typed "" then default_filename now_name else typed in
  (* Collect export content based on checkboxes *)
  let exportData := collect now_export (page s) (data s) in
  (* Generate file content based on format *)
  let generated :=
    if String.eqb format "json" then
      Some (JSON_stringify exportData, "application/json", "json")
    else if String.eqb format "txt" then
      Some (generateTextExport exportData, "text/plain", "txt")
    else if String.eqb format "csv" then
      Some (generateCSVExport exportData, "text/csv", "csv")
    else None in
  match generated with
  | None =>
      {| data := data s;
         page := page s;
         effects := effects s ++ [ShowMessage "error" "Unknown export format"] |}
  | Some (content, mimeType, extension) =>
      {| data := data s;
         page := page s;
         effects :=
           effects s
           (* Download the file *)
           ++ downloadFile content (filename ++ "." ++ extension) mimeType
           (* Close modal and show success message *)
           ++ [ModalHide;
               ShowMessage "success"
                 ("Logs exported successfully as " ++ filename ++ "."
                    ++ extension)] |}
  end.

End WithSerializer.

(** ** Start-up, statistics and the export dialog *)

(** [initLogExport()], as far as the tracked data goes: the start time is
    the clock reading [now].  (It also creates the export modal and binds
    the three buttons to [showExportModal], [clearLogs] and
    [exportLogs].) *)
Definition initLogExport (now : string) (d : LogData.t) : LogData.t :=
  let st := LogData.stats d in
  {| LogData.logs := LogData.logs d;
     LogData.apiCalls := LogData.apiCalls d;
     LogData.rateLimitEvents := LogData.rateLimitEvents d;
     LogData.config := LogData.config d;
     LogData.stats :=
       {| Stats.startTime := Some now;
          Stats.endTime := Stats.endTime st;
          Stats.totalComponents := Stats.totalComponents st;
          Stats.processedComponents := Stats.processedComponents st;
          Stats.errors := Stats.errors st;
          Stats.warnings := Stats.warnings st |} |}.

(** The argument of [updateProcessingStats]: an object holding some of
    the keys of the statistics; [None] is a key it does not have. *)
Module StatsPatch.
Record t : Type := {
  startTime : option (option string);
  endTime : option (option string);
  totalComponents : option number;
  processedComponents : option number;
  errors : option number;
  warnings : option number
}.
End StatsPatch.

(** One key of [{ ...old, ...patch }]. *)
Definition spread {A : Type} (old : A) (patch : option A) : A :=
  match patch with
  | Some a => a
  | None => old
  end.

(** [updateProcessingStats(stats)]. *)
Definition updateProcessingStats (stats : StatsPatch.t) (d : LogData.t)
  : LogData.t :=
  let st := LogData.stats d in
  {| LogData.logs := LogData.logs d;
     LogData.apiCalls := LogData.apiCalls d;
     LogData.rateLimitEvents := LogData.rateLimitEvents d;
     LogData.config := LogData.config d;
     LogData.stats :=
       {| Stats.startTime :=
            spread (Stats.startTime st) (StatsPatch.startTime stats);
          Stats.endTime :=
            spread (Stats.endTime st) (StatsPatch.endTime stats);
          Stats.totalComponents :=
            spread (Stats.totalComponents st) (StatsPatch.totalComponents stats);
          Stats.processedComponents :=
            spread (Stats.processedComponents st)
              (StatsPatch.processedComponents stats);
          Stats.errors := spread (Stats.errors st) (StatsPatch.errors stats);
          Stats.warnings :=
            spread (Stats.warnings st) (StatsPatch.warnings stats) |} |}.



End LogExport.

(* ================================================================== *)
(** * Properties of the configuration binder: statements *)
(* ================================================================== *)

Module ConfigSpec.
Import JS Page Config.

(** ** Full configuration records *)

Definition is_string (v : value) : bool :=
  match v with VStr _ => true | _ => false end.

Definition is_number (v : value) : bool :=
  match v with VNum _ => true | _ => false end.

Definition is_boolean (v : value) : bool :=
  match v with VBool _ => true | _ => false end.

(** [config.section.field]. *)
Definition field (c : object) (section name : string) : value :=
  prop (lookup section c) name.

(** A record that has every section and every field, each of the type the
    form gives it: strings for the provider, key, model and tier, numbers
    for the numeric settings, booleans for the switches. *)
Definition full_config (c : object) : bool :=
  is_string (field c "llm" "type")
  && is_string (field c "llm" "api_key")
  && is_string (field c "llm" "model")
  && is_number (field c "llm" "temperature")
  && is_number (field c "llm" "max_tokens")
  && is_number (field c "flow_control" "max_reader_search_attempts")
  && is_number (field c "flow_control" "max_verifier_rejections")
  && is_number (field c "flow_control" "status_sleep_time")
  && is_boolean (field c "docstring_options" "overwrite_docstrings")
  && is_string (lookup "current_provider_tier" c)
  && is_boolean (field c "user_overrides" "enable_conservative_limits")
  && is_number (field c "user_overrides" "max_components_per_minute")
  && is_number (field c "user_overrides" "delay_between_requests")
  && is_boolean (field c "user_overrides" "enable_batch_processing")
  && is_number (field c "user_overrides" "batch_size").

(** The fields [applyConfigToForm] guards with [||] and a fallback that is
    not the empty string all hold a truthy value: a string that is not
    empty, a number that is neither 0 nor NaN. *)
Definition no_falsy_field (c : object) : bool :=
  truthy (field c "llm" "type")
  && truthy (field c "llm" "model")
  && truthy (field c "llm" "temperature")
  && truthy (field c "llm" "max_tokens")
  && truthy (field c "flow_control" "max_reader_search_attempts")
  && truthy (field c "flow_control" "max_verifier_rejections")
  && truthy (field c "flow_control" "status_sleep_time")
  && truthy (lookup "current_provider_tier" c)
  && truthy (field c "user_overrides" "max_components_per_minute")
  && truthy (field c "user_overrides" "delay_between_requests")
  && truthy (field c "user_overrides" "batch_size").

(** A numeric field after the trip through the form: the parse of its
    string form. *)
Definition reparse (parse : string -> number) (v : value) : value :=
  VNum (parse (ToString v)).

(** The record the round trip is expected to return: the input's fields,
    the numeric ones reparsed. *)
Definition roundtrip_image (c : object) : value :=
  VObj [
    ("llm", VObj [
      ("type", field c "llm" "type");
      ("api_key", field c "llm" "api_key");
      ("model", field c "llm" "model");
      ("temperature", reparse parseFloat (field c "llm" "temperature"));
      ("max_tokens", reparse parseInt (field c "llm" "max_tokens")) ]);
    ("flow_control", VObj [
      ("max_reader_search_attempts",
        reparse parseInt (field c "flow_control" "max_reader_search_attempts"));
      ("max_verifier_rejections",
        reparse parseInt (field c "flow_control" "max_verifier_rejections"));
      ("status_sleep_time",
        reparse parseFloat (field c "flow_control" "status_sleep_time")) ]);
    ("docstring_options", VObj [
      ("overwrite_docstrings",
        field c "docstring_options" "overwrite_docstrings") ]);
    ("current_provider_tier", lookup "current_provider_tier" c);
    ("user_overrides", VObj [
      ("enable_conservative_limits",
        field c "user_overrides" "enable_conservative_limits");
      ("max_components_per_minute",
        reparse parseInt (field c "user_overrides" "max_components_per_minute"));
      ("delay_between_requests",
        reparse parseInt (field c "user_overrides" "delay_between_requests"));
      ("enable_batch_processing",
        field c "user_overrides" "enable_batch_processing");
      ("batch_size",
        reparse parseInt (field c "user_overrides" "batch_size")) ])
  ].

(** ** Sections and their controls *)

Inductive section : Type :=
| Llm
| ProviderTier
| UserOverrides
| FlowControl
| DocstringOptions.

Definition section_key (s : section) : string :=
  match s with
  | Llm => "llm"
  | ProviderTier => "current_provider_tier"
  | UserOverrides => "user_overrides"
  | FlowControl => "flow_control"
  | DocstringOptions => "docstring_options"
  end.

(** For each section, its fields bound to a value control: the field, the
    control's selector and the hard-coded fallback of the source. *)
Definition value_bindings (s : section) : list (string * string * value) :=
  match s with
  | Llm =>
      [ ("type", "#llm-type", VStr "gemini");
        ("api_key", "#llm-api-key", VStr "");
        ("model", "#llm-model", VStr "gemini-2.5-pro");
        ("temperature", "#llm-temperature", VNum 0.1);
        ("max_tokens", "#llm-max-tokens", VNum 16384) ]
  | ProviderTier => []
  | UserOverrides =>
      [ ("max_components_per_minute", "#max-components-per-minute", VNum 8);
        ("delay_between_requests", "#delay-between-requests", VNum 2000);
        ("batch_size", "#batch-size", VNum 3) ]
  | FlowControl =>
      [ ("max_reader_search_attempts", "#max-reader-search-attempts", VNum 2);
        ("max_verifier_rejections", "#max-verifier-rejections", VNum 1);
        ("status_sleep_time", "#status-sleep-time", VNum 1) ]
  | DocstringOptions => []
  end.

(** Its fields bound to a checkbox, with the state a missing field gives
    the box. *)
Definition checkbox_bindings (s : section) : list (string * string * bool) :=
  match s with
  | UserOverrides =>
      [ ("enable_conservative_limits", "#enable-conservative-limits", true);
        ("enable_batch_processing", "#enable-batch-processing", true) ]
  | DocstringOptions =>
      [ ("overwrite_docstrings", "#overwrite-docstrings", false) ]
  | _ => []
  end.

(** The state a box bound with default [d] takes from a field [v]: checked
    unless the field is [false] when the default is checked, checked when
    the field is truthy when it is not. *)
Definition box_state (d : bool) (v : value) : bool :=
  if d then strict_neq_bool v false else truthy v.

(** The value controls of a section; the tier is a section of its own,
    written as it is into its control. *)
Definition value_selectors (s : section) : list string :=
  match s with
  | ProviderTier => ["#provider-tier"]
  | _ => List.map (fun '(_, sel, _) => sel) (value_bindings s)
  end.

Definition checkbox_selectors (s : section) : list string :=
  List.map (fun '(_, sel, _) => sel) (checkbox_bindings s).

(** Every control of the section shows its fallback. *)
Definition shows_fallbacks (s : section) (p : Page.t) : Prop :=
  (forall f sel fb, In (f, sel, fb) (value_bindings s) ->
     get_val p sel = val_string fb)
  /\ (forall f sel d, In (f, sel, d) (checkbox_bindings s) ->
        is_checked p sel = d).

(** Every control of the section is in [p'] as it is in [p]. *)
Definition keeps_controls (s : section) (p p' : Page.t) : Prop :=
  (forall sel, In sel (value_selectors s) -> get_val p' sel = get_val p sel)
  /\ (forall sel, In sel (checkbox_selectors s) ->
        is_checked p' sel = is_checked p sel).

(** ** Statements and the controls they touch *)

(** A statement that leaves the value, or the box, at selector [k] as it
    found it. *)
Definition keeps_value (s : stmt) (k : string) : Prop :=
  forall p, control_value (s p) k = control_value p k.

Definition keeps_checked (s : stmt) (k : string) : Prop :=
  forall p, control_checked (s p) k = control_checked p k.

(** A statement that leaves the value [x], or the state [b], at selector
    [k] whatever the page was. *)
Definition sets_value (s : stmt) (k : string) (x : string) : Prop :=
  forall p, control_value (s p) k = x.

Definition sets_checked (s : stmt) (k : string) (b : bool) : Prop :=
  forall p, control_checked (s p) k = b.

(** ** Sample inputs *)

(** A form with every control empty and every box unchecked. *)
Definition blank : Page.t :=
  {| control_value := fun _ => "";
     control_checked := fun _ => false;
     inner_html := fun _ => "" |}.

(** The form after the user chose the provider claude. *)
Definition claude_chosen : Page.t := val "#llm-type" (VStr "claude") blank.

(** A full configuration record. *)
Definition sample_config (temperature : number) : object :=
  [ ("llm", VObj [
      ("type", VStr "claude");
      ("api_key", VStr "sk-test");
      ("model", VStr "claude-3-5-haiku-latest");
      ("temperature", VNum temperature);
      ("max_tokens", VNum 4096) ]);
    ("flow_control", VObj [
      ("max_reader_search_attempts", VNum 2);
      ("max_verifier_rejections", VNum 1);
      ("status_sleep_time", VNum 0.5) ]);
    ("docstring_options", VObj [ ("overwrite_docstrings", VBool true) ]);
    ("current_provider_tier", VStr "standard");
    ("user_overrides", VObj [
      ("enable_conservative_limits", VBool false);
      ("max_components_per_minute", VNum 8);
      ("delay_between_requests", VNum 2000);
      ("enable_batch_processing", VBool true);
      ("batch_size", VNum 3) ]) ].

(** ** The limits table *)

(** Every row of [providerLimits]. *)
Definition table_rows : list limits :=
  flat_map (fun '(_, tiers) => List.map snd tiers) providerLimits.

(** The effective quota of a row is the whole part of 80% of its nominal
    limit [r], and is shown as such. *)
Definition eighty_percent (l : limits) : Prop :=
  exists r : Z,
    requests l = of_Z r
    /\ effectiveRequests l = of_Z (r * 8 / 10)
    /\ Number_toString (requests l) = Z_to_string r
    /\ Number_toString (effectiveRequests l) = Z_to_string (r * 8 / 10).

(** ** The whole form *)

Definition sections : list section :=
  [Llm; ProviderTier; UserOverrides; FlowControl; DocstringOptions].

(** The selectors of the value controls, and of the boxes, that the
    configuration is bound to. *)
Definition bound_values : list string := flat_map value_selectors sections.

Definition bound_boxes : list string := flat_map checkbox_selectors sections.

(** A statement that leaves the inner HTML at selector [k] as it found
    it. *)
Definition keeps_html (s : stmt) (k : string) : Prop :=
  forall p, inner_html (s p) k = inner_html p k.

(** The limits lookup for the provider and tier a page holds returns:
    it raises no exception. *)
Definition reads (p : Page.t) : bool :=
  match find_limits (get_val p "#llm-type") (get_val p "#provider-tier") with
  | TypeError => false
  | _ => true
  end.

(** The limits lookup for the provider and the tier of a configuration
    record returns. *)
Definition lookup_returns (c : object) : bool :=
  match find_limits (val_string (field c "llm" "type"))
          (val_string (lookup "current_provider_tier" c)) with
  | TypeError => false
  | _ => true
  end.

(** The sections [applyConfigToForm] writes after the limits lookup. *)
Definition after_display (s : section) : bool :=
  match s with
  | FlowControl | DocstringOptions => true
  | _ => false
  end.

(** [applyConfigToForm] got as far as the statements of a section, on
    the page [p] it left: they come before the limits lookup, or the
    lookup returned. *)
Definition reached (s : section) (p : Page.t) : bool :=
  negb (after_display s) || reads p.

(** What the limits display shows for the provider and tier a page
    holds; when their lookup raises, what it showed before. *)
Definition shown_limits (p : Page.t) : string :=
  match find_limits (get_val p "#llm-type") (get_val p "#provider-tier") with
  | TypeError => inner_html p "#provider-limits-display"
  | Nothing => limits_placeholder
  | Row l => limits_html l
  | Builtin => builtin_html
  end.

(** A statement that sets the value, or the box, of the control [k]
    whenever the page it leaves is one whose limits lookup returns. *)
Definition sets_value_read (s : stmt) (k : string) (x : string) : Prop :=
  forall p, reads (s p) = true -> control_value (s p) k = x.

Definition sets_checked_read (s : stmt) (k : string) (b : bool) : Prop :=
  forall p, reads (s p) = true -> control_checked (s p) k = b.

(** A statement that sets the control [k] when the page it leaves is one
    whose limits lookup returns, and keeps it otherwise. *)
Definition settles_value (s : stmt) (k : string) (x : string) : Prop :=
  forall p,
    (reads (s p) = true -> control_value (s p) k = x)
    /\ (reads (s p) = false -> control_value (s p) k = control_value p k).

Definition settles_checked (s : stmt) (k : string) (b : bool) : Prop :=
  forall p,
    (reads (s p) = true -> control_checked (s p) k = b)
    /\ (reads (s p) = false ->
        control_checked (s p) k = control_checked p k).

(** The record [buildConfigFromForm] returns, as the object it is. *)
Definition built (p : Page.t) : object :=
  match buildConfigFromForm p with
  | VObj o => o
  | _ => []
  end.

(** The pairs of provider and tier that [providerLimits] has a row
    for. *)
Definition known_pairs : list (string * string) :=
  flat_map (fun '(provider, tiers) =>
              List.map (fun '(tier, _) => (provider, tier)) tiers)
    providerLimits.

(** Whether [providerLimits] has a row for a provider and tier. *)
Definition in_table (provider tier : string) : bool :=
  existsb (fun '(a, b) => String.eqb a provider && String.eqb b tier)
    known_pairs.

(** The seven rows of the table written out, with whole numbers:
    provider, tier, requests per minute, input tokens, output tokens,
    name of the tier. *)
Definition documented_limits
  : list (string * string * (Z * string * string * string)) :=
  [ ("gemini", "free", (150, "1M", "1M", "Free"));
    ("gemini", "pay_as_you_go", (150, "1M", "1M", "Pay-as-you-go"));
    ("gemini", "enterprise", (150, "1M", "1M", "Enterprise"));
    ("claude", "standard", (50, "20K", "8K", "Standard"));
    ("claude", "premium", (500, "200K", "100K", "Premium"));
    ("openai", "standard", (500, "200K", "100K", "Standard"));
    ("openai", "premium", (10000, "2M", "1M", "Premium")) ].

(** The text of the limits display, line by line, for the five strings
    it shows. *)
Definition display_text (requests effective input output tier : string)
  : string :=
  String.concat nl
    [ "";
      "            <div class=" ++ dq ++ "row" ++ dq ++ ">";
      "                <div class=" ++ dq ++ "col-6" ++ dq ++ ">";
      "                    <small><strong>Requests/Min:</strong><br>"
        ++ requests ++ " (using " ++ effective ++ ")</small>";
      "                </div>";
      "                <div class=" ++ dq ++ "col-6" ++ dq ++ ">";
      "                    <small><strong>Input Tokens:</strong><br>"
        ++ input ++ "</small>";
      "                </div>";
      "            </div>";
      "            <div class=" ++ dq ++ "row mt-1" ++ dq ++ ">";
      "                <div class=" ++ dq ++ "col-6" ++ dq ++ ">";
      "                    <small><strong>Output Tokens:</strong><br>"
        ++ output ++ "</small>";
      "                </div>";
      "                <div class=" ++ dq ++ "col-6" ++ dq ++ ">";
      "                    <small><strong>Tier:</strong><br>"
        ++ tier ++ "</small>";
      "                </div>";
      "            </div>";
      "        " ].

(** The form with the provider gemini and the tier [toString]. *)
Definition gemini_toString : Page.t :=
  val "#provider-tier" (VStr "toString") (val "#llm-type" (VStr "gemini") blank).

(** The sample record with the provider [toString] and the tier
    [caller]: the lookup of the limits reads the [caller] of a built-in
    function. *)
Definition caller_config : object :=
  [ ("llm", VObj [
      ("type", VStr "toString");
      ("api_key", VStr "sk-test");
      ("model", VStr "gpt-4o");
      ("temperature", VNum 0.7);
      ("max_tokens", VNum 2048) ]);
    ("flow_control", VObj [
      ("max_reader_search_attempts", VNum 4);
      ("max_verifier_rejections", VNum 3);
      ("status_sleep_time", VNum 2.5) ]);
    ("docstring_options", VObj [ ("overwrite_docstrings", VBool true) ]);
    ("current_provider_tier", VStr "caller");
    ("user_overrides", VObj [
      ("enable_conservative_limits", VBool false);
      ("max_components_per_minute", VNum 8);
      ("delay_between_requests", VNum 2000);
      ("enable_batch_processing", VBool true);
      ("batch_size", VNum 3) ]) ].

(** A configuration record that names the same provider and tier. *)
Definition toString_tier : object :=
  [ ("llm", VObj [ ("type", VStr "gemini") ]);
    ("current_provider_tier", VStr "toString") ].

(** The form with a provider and a tier chosen. *)
Definition chosen (provider tier : string) : Page.t :=
  val "#provider-tier" (VStr tier) (val "#llm-type" (VStr provider) blank).

(** The integers from 0 to [n]. *)
Definition upto (n : Z) : list Z :=
  List.map Z.of_nat (seq 0 (S (Z.to_nat n))).

(** Two numbers are the same binary64 value. *)
Definition same_number (x y : number) : bool :=
  match Prim2SF x, Prim2SF y with
  | S754_zero s, S754_zero s' => Bool.eqb s s'
  | S754_infinity s, S754_infinity s' => Bool.eqb s s'
  | S754_nan, S754_nan => true
  | S754_finite s m e, S754_finite s' m' e' =>
      Bool.eqb s s' && Pos.eqb m m' && Z.eqb e e'
  | _, _ => false
  end.

(** Two pages hold the same values, boxes and inner HTML everywhere. *)
Definition same_page (p q : Page.t) : Prop :=
  forall k,
    get_val p k = get_val q k
    /\ is_checked p k = is_checked q k
    /\ inner_html p k = inner_html q k.


End ConfigSpec.

(* ================================================================== *)
(** * Properties of the log aggregator: statements *)
(* ================================================================== *)

Module LogExportSpec.
Import JS LogExport.

(** The files handed to the browser among a list of effects. *)
Definition downloads (l : list effect) : list effect :=
  filter (fun e => match e with Download _ _ _ => true | _ => false end) l.

(** The messages of a given kind among a list of effects. *)
Definition messages (kind : string) (l : list effect) : list string :=
  flat_map (fun e => match e with
                     | ShowMessage k text =>
                         if String.eqb k kind then [text] else []
                     | _ => []
                     end) l.

(** The export dialog with the logs section checked and the four others
    unchecked. *)
Definition only_logs_selected (p : Page.t) : Prop :=
  Page.is_checked p "#include-logs" = true /\
  Page.is_checked p "#include-api-calls" = false /\
  Page.is_checked p "#include-rate-limits" = false /\
  Page.is_checked p "#include-config" = false /\
  Page.is_checked p "#include-stats" = false.

(** A page whose export dialog asks for [format], with only the logs
    section checked and no file name typed. *)
Definition dialog (format : string) : Page.t :=
  {| Page.control_value :=
       fun k => if String.eqb k "#export-format" then format else "";
     Page.control_checked := fun k => String.eqb k "#include-logs";
     Page.inner_html := fun _ => "" |}.

(** A serializer to run [exportLogs] with: it prints the number of log
    entries of the snapshot. *)
Definition count_logs (e : ExportData.t) : string :=
  match ExportData.logs e with
  | Some l => Z_to_string (Z.of_nat (List.length l))
  | None => "none"
  end.

(** Two states of the aggregator with the same log, and different API
    calls, rate limit events, configuration and statistics. *)
Definition busy : LogData.t :=
  addRateLimitEvent "2025-03-01T10:00:02.000Z" "2025-03-01T10:00:02.001Z"
    "RATE_LIMIT_HIT" "gemini" "requests" 150 150 "slow down"
    (addAPICallEntry "2025-03-01T10:00:01.000Z" "gemini" "gemini-2.5-pro"
       1200 350 812.5 VNull
       (addLogEntry "2025-03-01T10:00:00.000Z" "INFO" "started" VNull
          LogData.initial)).

Definition quiet : LogData.t :=
  {| LogData.logs := LogData.logs busy;
     LogData.apiCalls := [];
     LogData.rateLimitEvents := [];
     LogData.config := VObj [("current_provider_tier", VStr "free")];
     LogData.stats := LogData.stats LogData.initial |}.

(** A snapshot with one API call whose error text holds a double quote:
    [bad "x"]. *)
Definition quoted_error_call : ApiEntry.t :=
  {| ApiEntry.timestamp := "2025-03-01T10:00:01.000Z";
     ApiEntry.provider := "openai";
     ApiEntry.model := "gpt-4o";
     ApiEntry.inputTokens := 10;
     ApiEntry.outputTokens := 0;
     ApiEntry.duration := 5;
     ApiEntry.error := VStr ("bad " ++ dq ++ "x" ++ dq) |}.

Definition quoted_error_snapshot : ExportData.t :=
  {| ExportData.metadata_ :=
       {| exportTime := "2025-03-01T10:05:00.000Z";
          format := "csv";
          version := "1.0" |};
     ExportData.logs := None;
     ExportData.apiCalls := Some [quoted_error_call];
     ExportData.rateLimitEvents := None;
     ExportData.config := None;
     ExportData.stats := None |}.


(** ** Counters and logs *)

(** The number of log entries of a level. *)
Definition count_level (lvl : string) (l : list LogEntry.t) : Z :=
  Z.of_nat (List.length
              (List.filter (fun e => String.eqb (LogEntry.level e) lvl) l)).

(** The error and warning counters are the numbers of ERROR and WARNING
    entries of the log. *)
Definition counters_match (d : LogData.t) : Prop :=
  Stats.errors (LogData.stats d) = of_Z (count_level "ERROR" (LogData.logs d))
  /\ Stats.warnings (LogData.stats d) =
       of_Z (count_level "WARNING" (LogData.logs d)).

(** The tracked data after [updateProcessingStats({ errors: 2**53,
    warnings: 2**53 })] on the initial state. *)
Definition saturated : LogData.t :=
  updateProcessingStats
    {| StatsPatch.startTime := None;
       StatsPatch.endTime := None;
       StatsPatch.totalComponents := None;
       StatsPatch.processedComponents := None;
       StatsPatch.errors := Some 9007199254740992%float;
       StatsPatch.warnings := Some 9007199254740992%float |}
    LogData.initial.

(** The 53-bit mantissa of the binary64 value of a positive integer below
    [2^53]: the integer shifted left until it has 53 bits. *)
Definition mantissa53 (q : positive) : positive :=
  Z.to_pos (Zpos q * 2 ^ (53 - Zpos (digits2_pos q))).

(** The states of the tracked data that the script's own functions reach
    from the initial one, [updateProcessingStats] being given no counter
    of errors or warnings to overwrite. *)
Inductive recorded : LogData.t -> Prop :=
| recorded_initial : recorded LogData.initial
| recorded_init now d :
    recorded d -> recorded (initLogExport now d)
| recorded_log now level message details d :
    recorded d -> recorded (addLogEntry now level message details d)
| recorded_call now provider model i o t e d :
    recorded d -> recorded (addAPICallEntry now provider model i o t e d)
| recorded_event now now_log type provider limitType usage limit message d :
    recorded d ->
    recorded (addRateLimitEvent now now_log type provider limitType
                usage limit message d)
| recorded_config config d :
    recorded d -> recorded (updateConfigForExport config d)
| recorded_stats patch d :
    recorded d ->
    StatsPatch.errors patch = None ->
    StatsPatch.warnings patch = None ->
    recorded (updateProcessingStats patch d)
| recorded_complete now d :
    recorded d -> recorded (markProcessingComplete now d)
| recorded_clear confirmed s :
    recorded (data s) -> recorded (data (clearLogs confirmed s)).

(** ** Patches of the statistics *)

(** The patch with no key. *)
Definition empty_patch : StatsPatch.t :=
  {| StatsPatch.startTime := None;
     StatsPatch.endTime := None;
     StatsPatch.totalComponents := None;
     StatsPatch.processedComponents := None;
     StatsPatch.errors := None;
     StatsPatch.warnings := None |}.

(** One key of [{ ...first, ...second }] for two patches. *)
Definition later {A : Type} (first second : option A) : option A :=
  match second with
  | Some a => Some a
  | None => first
  end.

(** [{ ...first, ...second }]. *)
Definition patch_then (first second : StatsPatch.t) : StatsPatch.t :=
  {| StatsPatch.startTime :=
       later (StatsPatch.startTime first) (StatsPatch.startTime second);
     StatsPatch.endTime :=
       later (StatsPatch.endTime first) (StatsPatch.endTime second);
     StatsPatch.totalComponents :=
       later (StatsPatch.totalComponents first)
         (StatsPatch.totalComponents second);
     StatsPatch.processedComponents :=
       later (StatsPatch.processedComponents first)
         (StatsPatch.processedComponents second);
     StatsPatch.errors :=
       later (StatsPatch.errors first) (StatsPatch.errors second);
     StatsPatch.warnings :=
       later (StatsPatch.warnings first) (StatsPatch.warnings second) |}.

(** ** Reading the export back *)










(** The snapshot with every empty sequence taken out, as if its section
    had not been selected. *)
Definition without_empty {A : Type} (o : option (list A)) : option (list A) :=
  match o with
  | Some [] => None
  | _ => o
  end.

Definition drop_empty (data : ExportData.t) : ExportData.t :=
  {| ExportData.metadata_ := ExportData.metadata_ data;
     ExportData.logs := without_empty (ExportData.logs data);
     ExportData.apiCalls := without_empty (ExportData.apiCalls data);
     ExportData.rateLimitEvents := without_empty (ExportData.rateLimitEvents data);
     ExportData.config := ExportData.config data;
     ExportData.stats := ExportData.stats data |}.

(** The lines every text export starts with. *)
Definition text_preamble (m : metadata) : string :=
  "Scribe Processing Logs Export" ++ nl ++
  "Generated: " ++ exportTime m ++ nl ++
  "Format: " ++ format m ++ nl ++
  "Version: " ++ version m ++ nl ++
  nl ++
  JS.repeat "=" 50 ++ nl ++
  nl.




(** A character occurs in a string. *)
Fixpoint occurs (c : ascii) (s : string) : bool :=
  match s with
  | EmptyString => false
  | String a rest => Ascii.eqb a c || occurs c rest
  end.

End LogExportSpec.

(* ================================================================== *)
(** * Facts: integers as binary64 numbers *)
(* ================================================================== *)

(** The counters of the aggregator are binary64 numbers that count.  This
    part shows, from the definition of rounding, that the integers from 0
    to [2^53] are binary64 values and that adding [1] to one below [2^53]
    gives the next integer exactly. *)
Module NumberFacts.
Import JS LogExportSpec.

Lemma digits2_pos_log2 (m : positive) :
  Zpos (digits2_pos m) = Z.log2 (Zpos m) + 1.
Proof.
  assert (E : digits2_pos m = Pos.size m) by (induction m; simpl; congruence).
  rewrite E. destruct m; simpl; lia.
Qed.

Lemma iter_pos_iter {A : Type} (f : A -> A) (n : positive) (x : A) :
  iter_pos f n x = Pos.iter f x n.
Proof.
  revert x. induction n as [n IH | n IH |]; intros x; simpl.
  - rewrite !IH, <- !Pos.iter_swap. reflexivity.
  - rewrite !IH. reflexivity.
  - reflexivity.
Qed.

Lemma iter_xO (c j : positive) : Zpos (Pos.iter xO c j) = Zpos c * 2 ^ Zpos j.
Proof.
  induction j as [| j IH] using Pos.peano_ind.
  - simpl. lia.
  - rewrite Pos.iter_succ, Pos2Z.inj_xO, IH, Pos2Z.inj_succ, Z.pow_succ_r by lia. lia.
Qed.

Lemma shr_zeros (c j : positive) :
  iter_pos shr_1 j (Build_shr_record (Zpos (Pos.iter xO c j)) false false) =
  Build_shr_record (Zpos c) false false.
Proof.
  rewrite iter_pos_iter. revert c.
  induction j as [| j IH] using Pos.peano_ind; intros c.
  - reflexivity.
  - rewrite Pos.iter_succ, (Pos.iter_succ_r j positive xO), IH. reflexivity.
Qed.

Lemma shr_exact (m c j : positive) :
  Zpos m = Zpos c * 2 ^ Zpos j ->
  iter_pos shr_1 j (Build_shr_record (Zpos m) false false) =
  Build_shr_record (Zpos c) false false.
Proof.
  intros E. rewrite <- iter_xO in E. injection E as ->. apply shr_zeros.
Qed.

Lemma digits_shifted (m c : positive) (j : Z) :
  0 <= j -> Zpos m = Zpos c * 2 ^ j ->
  Zpos (digits2_pos m) = Zpos (digits2_pos c) + j.
Proof.
  intros J E. rewrite !digits2_pos_log2, E, Z.log2_mul_pow2 by lia. lia.
Qed.

(** Rounding a mantissa that is a 53-bit integer times a power of two. *)
Lemma binary_round_aux_exact (s : bool) (m c : positive) (e t : Z) :
  Zpos (digits2_pos c) = 53 -> e <= t -> -1074 <= t <= 971 ->
  Zpos m = Zpos c * 2 ^ (t - e) ->
  binary_round_aux prec emax s (Zpos m) e loc_Exact = S754_finite s c t.
Proof.
  intros D J T E.
  pose proof (digits_shifted m c (t - e) ltac:(lia) E) as Dm.
  unfold binary_round_aux, shr_fexp.
  replace (fexp prec emax (Zdigits2 (Zpos m) + e) - e) with (t - e)
    by (unfold fexp, emin, prec, emax, Zdigits2; lia).
  assert (S1 : shr (shr_record_of_loc (Zpos m) loc_Exact) e (t - e) =
               (Build_shr_record (Zpos c) false false, t)).
  { unfold shr. simpl shr_record_of_loc.
    destruct (t - e) as [| j | j] eqn:Q; try lia.
    - f_equal; [| lia]. f_equal. rewrite Z.pow_0_r in E. lia.
    - f_equal; [| lia]. apply shr_exact. exact E. }
  rewrite S1. cbn [shr_m loc_of_shr_record round_nearest_even].
  replace (fexp prec emax (Zdigits2 (Zpos c) + t) - t) with 0
    by (unfold fexp, emin, prec, emax, Zdigits2; lia).
  cbn [shr shr_record_of_loc shr_m].
  replace (t <=? emax - prec) with true
    by (symmetry; apply Z.leb_le; unfold prec, emax; lia).
  reflexivity.
Qed.

Lemma shl_align_value (m : positive) (e e' : Z) :
  e' <= e -> Zpos (fst (shl_align m e e')) = Zpos m * 2 ^ (e - e') /\
             snd (shl_align m e e') = e'.
Proof.
  intros L. unfold shl_align. destruct (e' - e) as [| j | j] eqn:Q; try lia; simpl.
  - replace (e - e') with 0 by lia. rewrite Z.pow_0_r. split; lia.
  - rewrite iter_xO. replace (e - e') with (Zpos j) by lia. split; reflexivity.
Qed.

Lemma mantissa53_value (q : positive) :
  Zpos (digits2_pos q) <= 53 ->
  Zpos (mantissa53 q) = Zpos q * 2 ^ (53 - Zpos (digits2_pos q)) /\
  Zpos (digits2_pos (mantissa53 q)) = 53.
Proof.
  intros D. unfold mantissa53.
  assert (P : 0 < Zpos q * 2 ^ (53 - Zpos (digits2_pos q))).
  { apply Z.mul_pos_pos; [lia | apply Z.pow_pos_nonneg; lia]. }
  split; [rewrite Z2Pos.id by exact P; reflexivity |].
  rewrite (digits_shifted _ q (53 - Zpos (digits2_pos q))); [lia | lia |].
  rewrite Z2Pos.id by exact P. reflexivity.
Qed.

(** [binary_round] of [q * 2^k] at exponent [e], for [q] below [2^53]. *)
Lemma binary_round_shifted (s : bool) (m q : positive) (k e t : Z) :
  Zpos (digits2_pos q) <= 53 -> 0 <= k -> Zpos m = Zpos q * 2 ^ k ->
  t = Zpos (digits2_pos q) + k + e - 53 -> -1074 <= t <= 971 ->
  binary_round prec emax s m e = S754_finite s (mantissa53 q) t.
Proof.
  intros D K E Q T.
  destruct (mantissa53_value q D) as [C1 C2].
  pose proof (digits_shifted m q k K E) as Dm.
  unfold binary_round.
  replace (fexp prec emax (Zpos (digits2_pos m) + e)) with t
    by (unfold fexp, emin, prec, emax; lia).
  destruct (Z.le_gt_cases t e) as [L | G].
  - destruct (shl_align_value m e t L) as [V1 V2].
    destruct (shl_align m e t) as [mz ez]. cbn [fst snd] in V1, V2. subst ez.
    apply binary_round_aux_exact; try lia.
    rewrite Z.sub_diag, Z.pow_0_r, Z.mul_1_r, V1, C1, E.
    rewrite <- Z.mul_assoc, <- Z.pow_add_r by lia. do 2 f_equal. lia.
  - unfold shl_align.
    destruct (t - e) as [| j | j] eqn:J; try lia.
    apply binary_round_aux_exact; try lia.
    rewrite C1, E, <- Z.mul_assoc, <- Z.pow_add_r by lia. do 2 f_equal. lia.
Qed.

Lemma digits_below (p : positive) :
  Zpos p < 2 ^ 53 -> Zpos (digits2_pos p) <= 53.
Proof.
  intros B. rewrite digits2_pos_log2.
  assert (Z.log2 (Zpos p) < 53) by (apply Z.log2_lt_pow2; lia). lia.
Qed.

(** The binary64 value of a positive integer below [2^53] is the integer. *)
Lemma of_Z_pos (p : positive) :
  Zpos p < 2 ^ 53 ->
  Prim2SF (of_Z (Zpos p)) =
  S754_finite false (mantissa53 p) (Zpos (digits2_pos p) - 53).
Proof.
  intros B. pose proof (digits_below p B) as D.
  assert (R : binary_round prec emax false p 0 =
              S754_finite false (mantissa53 p) (Zpos (digits2_pos p) - 53)).
  { apply (binary_round_shifted false p p 0 0); try lia. }
  unfold of_Z. cbn [binary_normalize]. rewrite R.
  apply Prim2SF_SF2Prim.
  destruct (mantissa53_value p D) as [_ C2].
  unfold valid_binary, bounded, canonical_mantissa.
  apply andb_true_intro. split; [apply Z.eqb_eq | apply Z.leb_le];
    unfold fexp, emin, prec, emax; lia.
Qed.

(** Adding one to an integer below [2^53] is exact in binary64. *)
Lemma add_one_exact (n : Z) :
  0 <= n < 2 ^ 53 -> (of_Z n + 1)%float = of_Z (n + 1).
Proof.
  intros B. apply Prim2SF_inj. rewrite add_spec.
  destruct n as [| p | p]; try lia.
  - vm_compute. reflexivity.
  - destruct (Z.eq_dec (Zpos p) (2 ^ 53 - 1)) as [Top | Low].
    + injection Top as ->. vm_compute. reflexivity.
    + rewrite (of_Z_pos p) by lia.
      replace (Zpos p + 1) with (Zpos (p + 1)) by lia.
      rewrite (of_Z_pos (p + 1)) by lia.
      pose proof (digits_below p ltac:(lia)) as D.
      destruct (mantissa53_value p D) as [C1 C2].
      assert (P1 : 1 <= Zpos (digits2_pos p)) by lia.
      replace (Prim2SF 1) with (S754_finite false 4503599627370496 (-52))
        by (vm_compute; reflexivity).
      unfold SF64add, SFadd.
      replace (Z.min (Zpos (digits2_pos p) - 53) (-52)) with (-52) by lia.
      destruct (shl_align_value (mantissa53 p) (Zpos (digits2_pos p) - 53) (-52)
                  ltac:(lia)) as [V _].
      set (a := fst (shl_align (mantissa53 p) (Zpos (digits2_pos p) - 53) (-52))) in *.
      change (fst (shl_align 4503599627370496 (-52) (-52)))
        with 4503599627370496%positive.
      cbn [cond_Zopp Z.add binary_normalize].
      apply (binary_round_shifted false _ (p + 1) 52 (-52));
        try lia; [apply digits_below; lia | | pose proof (digits_below (p + 1)); lia].
      rewrite Pos2Z.inj_add, V, C1, <- Z.mul_assoc, <- Z.pow_add_r by lia.
      replace (53 - Zpos (digits2_pos p) + (Zpos (digits2_pos p) - 53 - -52))
        with 52 by lia.
      lia.
Qed.

Lemma of_Z_inj (a b : Z) :
  0 <= a < 2 ^ 53 -> 0 <= b < 2 ^ 53 -> of_Z a = of_Z b -> a = b.
Proof.
  intros A B E. apply (f_equal Prim2SF) in E.
  destruct a as [| p | p], b as [| q | q]; try lia.
  - rewrite (of_Z_pos q) in E by lia. vm_compute in E. discriminate E.
  - rewrite (of_Z_pos p) in E by lia. vm_compute in E. discriminate E.
  - rewrite (of_Z_pos p), (of_Z_pos q) in E by lia.
    pose proof (f_equal (fun x => match x with
                                 | S754_finite _ m _ => m
                                 | _ => xH
                                 end) E) as M.
    pose proof (f_equal (fun x => match x with
                                 | S754_finite _ _ e => e
                                 | _ => 0
                                 end) E) as X.
    cbv beta iota in M, X.
    destruct (mantissa53_value p (digits_below p ltac:(lia))) as [C1 _].
    destruct (mantissa53_value q (digits_below q ltac:(lia))) as [C2 _].
    assert (D : Zpos (digits2_pos p) = Zpos (digits2_pos q)) by lia.
    rewrite M, D, C2 in C1.
    pose proof (digits_below q ltac:(lia)) as Q.
    apply Z.mul_cancel_r in C1; [lia |].
    apply Z.pow_nonzero; lia.
Qed.

(** At [2^53] the sum with [1] is rounded back to [2^53]. *)
Lemma add_one_saturates :
  (9007199254740992 + 1)%float = 9007199254740992%float
  /\ of_Z (2 ^ 53) = 9007199254740992%float.
Proof. split; vm_compute; reflexivity. Qed.

End NumberFacts.

(* ================================================================== *)
(** * Properties of the configuration binder: proofs *)
(* ================================================================== *)

Module ConfigFacts.
Import JS Page Config ConfigSpec.

(** ** Which statement touches which control *)

Lemma block_cons s rest p : block (s :: rest) p = block rest (s p).
Proof. reflexivity. Qed.

Lemma truthy_or_false v : truthy (or v (VBool false)) = truthy v.
Proof. unfold or. destruct (truthy v) eqn:E; [exact E | reflexivity]. Qed.

Section Controls.

Variable k : string.

Lemma keeps_value_val sel v :
  String.eqb k sel = false -> keeps_value (val sel v) k.
Proof. intros H p. cbn. unfold upd. now rewrite H. Qed.

Lemma keeps_value_prop_checked sel v : keeps_value (prop_checked sel v) k.
Proof. intros p. reflexivity. Qed.

Lemma keeps_value_display p q :
  updateProviderLimitsDisplay p = Some q ->
  control_value q k = control_value p k.
Proof.
  unfold updateProviderLimitsDisplay.
  destruct (find_limits _ _) as [| |l|]; intros [= <-]; reflexivity.
Qed.

Lemma keeps_value_and_then rest :
  keeps_value rest k ->
  keeps_value (and_then updateProviderLimitsDisplay rest) k.
Proof.
  intros H p. unfold and_then.
  destruct (updateProviderLimitsDisplay p) as [q|] eqn:E; [|reflexivity].
  rewrite H. exact (keeps_value_display p q E).
Qed.

Lemma keeps_value_when c body :
  keeps_value body k -> keeps_value (when c body) k.
Proof. intros H p. unfold when. destruct c; [apply H | reflexivity]. Qed.

Lemma keeps_value_skip body : keeps_value (when false body) k.
Proof. intros p. reflexivity. Qed.

Lemma keeps_value_nil : keeps_value (block []) k.
Proof. intros p. reflexivity. Qed.

Lemma keeps_value_cons s rest :
  keeps_value s k -> keeps_value (block rest) k ->
  keeps_value (block (s :: rest)) k.
Proof. intros Hs Hr p. rewrite block_cons, Hr. apply Hs. Qed.

Lemma keeps_checked_prop_checked sel v :
  String.eqb k sel = false -> keeps_checked (prop_checked sel v) k.
Proof. intros H p. cbn. unfold upd. now rewrite H. Qed.

Lemma keeps_checked_val sel v : keeps_checked (val sel v) k.
Proof. intros p. reflexivity. Qed.

Lemma keeps_checked_display p q :
  updateProviderLimitsDisplay p = Some q ->
  control_checked q k = control_checked p k.
Proof.
  unfold updateProviderLimitsDisplay.
  destruct (find_limits _ _) as [| |l|]; intros [= <-]; reflexivity.
Qed.

Lemma keeps_checked_and_then rest :
  keeps_checked rest k ->
  keeps_checked (and_then updateProviderLimitsDisplay rest) k.
Proof.
  intros H p. unfold and_then.
  destruct (updateProviderLimitsDisplay p) as [q|] eqn:E; [|reflexivity].
  rewrite H. exact (keeps_checked_display p q E).
Qed.

Lemma keeps_checked_when c body :
  keeps_checked body k -> keeps_checked (when c body) k.
Proof. intros H p. unfold when. destruct c; [apply H | reflexivity]. Qed.

Lemma keeps_checked_skip body : keeps_checked (when false body) k.
Proof. intros p. reflexivity. Qed.

Lemma keeps_checked_nil : keeps_checked (block []) k.
Proof. intros p. reflexivity. Qed.

Lemma keeps_checked_cons s rest :
  keeps_checked s k -> keeps_checked (block rest) k ->
  keeps_checked (block (s :: rest)) k.
Proof. intros Hs Hr p. rewrite block_cons, Hr. apply Hs. Qed.

Lemma sets_value_val v : sets_value (val k v) k (val_string v).
Proof. intros p. cbn. unfold upd. now rewrite String.eqb_refl. Qed.

Lemma sets_value_when body x :
  sets_value body k x -> sets_value (when true body) k x.
Proof. intros H p. apply H. Qed.

Lemma sets_value_here s rest x :
  sets_value s k x -> keeps_value (block rest) k ->
  sets_value (block (s :: rest)) k x.
Proof. intros Hs Hr p. rewrite block_cons, Hr. apply Hs. Qed.

Lemma sets_value_later s rest x :
  sets_value (block rest) k x -> sets_value (block (s :: rest)) k x.
Proof. intros Hr p. rewrite block_cons. apply Hr. Qed.

Lemma sets_checked_prop_checked v :
  sets_checked (prop_checked k v) k (truthy v).
Proof. intros p. cbn. unfold upd. now rewrite String.eqb_refl. Qed.

Lemma sets_checked_or_false v :
  sets_checked (prop_checked k (or v (VBool false))) k (truthy v).
Proof. intros p. rewrite sets_checked_prop_checked. apply truthy_or_false. Qed.

Lemma sets_checked_when body b :
  sets_checked body k b -> sets_checked (when true body) k b.
Proof. intros H p. apply H. Qed.

Lemma sets_checked_here s rest b :
  sets_checked s k b -> keeps_checked (block rest) k ->
  sets_checked (block (s :: rest)) k b.
Proof. intros Hs Hr p. rewrite block_cons, Hr. apply Hs. Qed.

Lemma sets_checked_later s rest b :
  sets_checked (block rest) k b -> sets_checked (block (s :: rest)) k b.
Proof. intros Hr p. rewrite block_cons. apply Hr. Qed.

(** What the statements after the limits lookup set is set on the pages
    whose lookup returns. *)
Lemma raised_not_read p :
  updateProviderLimitsDisplay p = None -> reads p = false.
Proof.
  unfold updateProviderLimitsDisplay, reads.
  destruct (find_limits _ _); [reflexivity | discriminate ..].
Qed.

Lemma sets_value_read_and_then rest x :
  sets_value rest k x ->
  sets_value_read (and_then updateProviderLimitsDisplay rest) k x.
Proof.
  intros H p. unfold and_then.
  destruct (updateProviderLimitsDisplay p) as [q|] eqn:E.
  - intros _. apply H.
  - intros R. rewrite (raised_not_read p E) in R. discriminate R.
Qed.

Lemma sets_value_read_last s x :
  sets_value_read s k x -> sets_value_read (block [s]) k x.
Proof. intros H p. exact (H p). Qed.

Lemma sets_value_read_later s rest x :
  sets_value_read (block rest) k x ->
  sets_value_read (block (s :: rest)) k x.
Proof. intros Hr p. rewrite block_cons. apply Hr. Qed.

Lemma sets_checked_read_and_then rest b :
  sets_checked rest k b ->
  sets_checked_read (and_then updateProviderLimitsDisplay rest) k b.
Proof.
  intros H p. unfold and_then.
  destruct (updateProviderLimitsDisplay p) as [q|] eqn:E.
  - intros _. apply H.
  - intros R. rewrite (raised_not_read p E) in R. discriminate R.
Qed.

Lemma sets_checked_read_last s b :
  sets_checked_read s k b -> sets_checked_read (block [s]) k b.
Proof. intros H p. exact (H p). Qed.

Lemma sets_checked_read_later s rest b :
  sets_checked_read (block rest) k b ->
  sets_checked_read (block (s :: rest)) k b.
Proof. intros Hr p. rewrite block_cons. apply Hr. Qed.

End Controls.

(** The statement that writes a control is found by walking the block;
    every other statement is shown to keep it. *)
Ltac keeps :=
  lazymatch goal with
  | |- keeps_value (block []) _ => apply keeps_value_nil
  | |- keeps_value (block (_ :: _)) _ => apply keeps_value_cons; keeps
  | |- keeps_value (when false _) _ => apply keeps_value_skip
  | |- keeps_value (when _ _) _ => apply keeps_value_when; keeps
  | |- keeps_value (val _ _) _ => apply keeps_value_val; reflexivity
  | |- keeps_value (prop_checked _ _) _ => apply keeps_value_prop_checked
  | |- keeps_value (and_then _ _) _ => apply keeps_value_and_then; keeps
  | |- keeps_checked (block []) _ => apply keeps_checked_nil
  | |- keeps_checked (block (_ :: _)) _ => apply keeps_checked_cons; keeps
  | |- keeps_checked (when false _) _ => apply keeps_checked_skip
  | |- keeps_checked (when _ _) _ => apply keeps_checked_when; keeps
  | |- keeps_checked (prop_checked _ _) _ =>
      apply keeps_checked_prop_checked; reflexivity
  | |- keeps_checked (val _ _) _ => apply keeps_checked_val
  | |- keeps_checked (and_then _ _) _ => apply keeps_checked_and_then; keeps
  end.

Ltac sets :=
  lazymatch goal with
  | |- sets_value (val ?k _) ?k _ => apply sets_value_val
  | |- sets_value (when true _) _ _ => apply sets_value_when; sets
  | |- sets_value (block (_ :: _)) _ _ =>
      first [ apply sets_value_here; [sets | keeps]
            | apply sets_value_later; sets ]
  | |- sets_checked (prop_checked ?k (or ?v (VBool false))) ?k _ =>
      exact (sets_checked_or_false k v)
  | |- sets_checked (prop_checked ?k ?v) ?k _ =>
      exact (sets_checked_prop_checked k v)
  | |- sets_checked (when true _) _ _ => apply sets_checked_when; sets
  | |- sets_checked (block (_ :: _)) _ _ =>
      first [ apply sets_checked_here; [sets | keeps]
            | apply sets_checked_later; sets ]
  end.

(** As [sets], for a control written after the limits lookup. *)
Ltac sets_read :=
  lazymatch goal with
  | |- sets_value_read (and_then _ _) _ _ =>
      apply sets_value_read_and_then; sets
  | |- sets_value_read (block [_]) _ _ =>
      apply sets_value_read_last; sets_read
  | |- sets_value_read (block (_ :: _)) _ _ =>
      apply sets_value_read_later; sets_read
  | |- sets_checked_read (and_then _ _) _ _ =>
      apply sets_checked_read_and_then; sets
  | |- sets_checked_read (block [_]) _ _ =>
      apply sets_checked_read_last; sets_read
  | |- sets_checked_read (block (_ :: _)) _ _ =>
      apply sets_checked_read_later; sets_read
  end.

(** ** What [applyConfigToForm] leaves alone *)

(** C2.  A section that is absent from the configuration record (or
    falsy) has every one of its controls left as it was before the call:
    the values and the boxes of the form are those the page already
    held. *)
Theorem applyConfigToForm_absent_section (c : object) (p : Page.t)
    (s : section) :
  truthy (lookup (section_key s) c) = false ->
  keeps_controls s p (applyConfigToForm c p).
Proof.
  intros H. split; intros sel Hin.
  - assert (K : keeps_value (applyConfigToForm c) sel); [|apply K].
    unfold applyConfigToForm. cbv zeta.
    destruct s; cbn [section_key] in H; rewrite H;
      cbn [value_selectors value_bindings List.map In] in Hin;
      repeat (destruct Hin as [<-|Hin]; [keeps|]);
      contradiction.
  - assert (K : keeps_checked (applyConfigToForm c) sel); [|apply K].
    unfold applyConfigToForm. cbv zeta.
    destruct s; cbn [section_key] in H; rewrite H;
      cbn [checkbox_selectors checkbox_bindings List.map In] in Hin;
      repeat (destruct Hin as [<-|Hin]; [keeps|]);
      contradiction.
Qed.

(** ** What [applyConfigToForm] writes *)

(** A section that is present, and whose statements [applyConfigToForm]
    reached, has each of its value controls set to the field or, when
    the field is falsy, to the fallback; each of its boxes to the state
    the field gives; and the tier is written as it is. *)
Lemma applyConfigToForm_present_section (c : object) (p : Page.t)
    (s : section) :
  truthy (lookup (section_key s) c) = true ->
  reached s (applyConfigToForm c p) = true ->
  (forall f sel fb, In (f, sel, fb) (value_bindings s) ->
     get_val (applyConfigToForm c p) sel
     = val_string (or (field c (section_key s) f) fb))
  /\ (forall f sel d, In (f, sel, d) (checkbox_bindings s) ->
        is_checked (applyConfigToForm c p) sel
        = box_state d (field c (section_key s) f))
  /\ (s = ProviderTier ->
        get_val (applyConfigToForm c p) "#provider-tier"
        = val_string (lookup "current_provider_tier" c)).
Proof.
  intros H R. split; [|split].
  - intros f sel fb Hin.
    destruct (after_display s) eqn:Late.
    + assert (K : sets_value_read (applyConfigToForm c) sel
                    (val_string (or (field c (section_key s) f) fb)));
        [| unfold reached in R; rewrite Late in R; exact (K p R)].
      unfold applyConfigToForm, field. cbv zeta.
      destruct s; try discriminate Late;
        cbn [section_key] in H |- *; rewrite H;
        cbn [value_bindings In] in Hin;
        repeat (destruct Hin as [[= <- <- <-]|Hin]; [sets_read|]);
        contradiction.
    + assert (K : sets_value (applyConfigToForm c) sel
                    (val_string (or (field c (section_key s) f) fb)));
        [|apply K].
      unfold applyConfigToForm, field. cbv zeta.
      destruct s; try discriminate Late;
        cbn [section_key] in H |- *; rewrite H;
        cbn [value_bindings In] in Hin;
        repeat (destruct Hin as [[= <- <- <-]|Hin]; [sets|]);
        contradiction.
  - intros f sel d Hin.
    destruct (after_display s) eqn:Late.
    + assert (K : sets_checked_read (applyConfigToForm c) sel
                    (box_state d (field c (section_key s) f)));
        [| unfold reached in R; rewrite Late in R; exact (K p R)].
      unfold applyConfigToForm, field. cbv zeta.
      destruct s; try discriminate Late;
        cbn [section_key] in H |- *; rewrite H;
        cbn [checkbox_bindings In] in Hin;
        repeat (destruct Hin as [[= <- <- <-]|Hin];
                [cbn [box_state]; sets_read|]);
        contradiction.
    + assert (K : sets_checked (applyConfigToForm c) sel
                    (box_state d (field c (section_key s) f)));
        [|apply K].
      unfold applyConfigToForm, field. cbv zeta.
      destruct s; try discriminate Late;
        cbn [section_key] in H |- *; rewrite H;
        cbn [checkbox_bindings In] in Hin;
        repeat (destruct Hin as [[= <- <- <-]|Hin];
                [cbn [box_state]; sets|]);
        contradiction.
  - intros ->. cbn in H.
    assert (K : sets_value (applyConfigToForm c) "#provider-tier"
                  (val_string (lookup "current_provider_tier" c)));
      [|apply K].
    unfold applyConfigToForm. cbv zeta. rewrite H. sets.
Qed.

(** In a present section whose statements were reached, a field that is
    missing (or falsy) leaves its control at the hard-coded fallback. *)
Lemma applyConfigToForm_missing_field (c : object) (p : Page.t) (s : section)
    (f sel : string) (fb : value) :
  truthy (lookup (section_key s) c) = true ->
  reached s (applyConfigToForm c p) = true ->
  In (f, sel, fb) (value_bindings s) ->
  truthy (field c (section_key s) f) = false ->
  get_val (applyConfigToForm c p) sel = val_string fb.
Proof.
  intros Hs R Hin Hf.
  rewrite (proj1 (applyConfigToForm_present_section c p s Hs R) f sel fb Hin).
  unfold or. now rewrite Hf.
Qed.

(** The fallbacks as the controls show them. *)
Example fallback_strings :
  List.map (fun '(_, _, fb) => val_string fb)
    (value_bindings Llm ++ value_bindings UserOverrides
       ++ value_bindings FlowControl)
  = ["gemini"; ""; "gemini-2.5-pro"; "0.1"; "16384";
     "8"; "2000"; "3"; "2"; "1"; "1"].
Proof. vm_compute. reflexivity. Qed.


(** The form of a configuration record with no section, opened on a page
    where the user had chosen claude: the provider is still claude. *)
Lemma absent_llm_keeps_choice :
  truthy (lookup (section_key Llm) []) = false
  /\ get_val (applyConfigToForm [] claude_chosen) "#llm-type" = "claude"
  /\ ~ shows_fallbacks Llm (applyConfigToForm [] claude_chosen).
Proof.
  split; [reflexivity|]. split; [reflexivity|].
  intros [Hv _].
  specialize (Hv "type" "#llm-type" (VStr "gemini") (or_introl eq_refl)).
  vm_compute in Hv. discriminate Hv.
Qed.

(** The same record and page, through the theorem. *)
Lemma applyConfigToForm_absent_section_empty :
  truthy (lookup (section_key Llm) []) = false
  /\ keeps_controls Llm claude_chosen (applyConfigToForm [] claude_chosen).
Proof.
  split; [reflexivity|].
  exact (applyConfigToForm_absent_section [] claude_chosen Llm eq_refl).
Defined.

(** ** The round trip *)

(** A field that holds something is read from a section that is an
    object, which is truthy. *)
Lemma field_section c sec name :
  field c sec name <> VUndef -> truthy (lookup sec c) = true.
Proof. unfold field. destruct (lookup sec c); cbn; congruence. Qed.

Lemma is_string_inv v : is_string v = true -> exists s, v = VStr s.
Proof. destruct v; try discriminate. eauto. Qed.

Lemma is_number_inv v : is_number v = true -> exists n, v = VNum n.
Proof. destruct v; try discriminate. eauto. Qed.

Lemma is_boolean_inv v : is_boolean v = true -> exists b, v = VBool b.
Proof. destruct v; try discriminate. eauto. Qed.

(** What a control holds after [.val(v || fallback)]. *)
Lemma val_or_string s fb :
  truthy (VStr s) = true -> val_string (or (VStr s) fb) = s.
Proof. unfold or. now intros ->. Qed.

Lemma val_or_number n fb :
  truthy (VNum n) = true -> val_string (or (VNum n) fb) = ToString (VNum n).
Proof. unfold or. now intros ->. Qed.

Lemma val_or_empty s : val_string (or (VStr s) (VStr "")) = s.
Proof. destruct s; reflexivity. Qed.

Ltac typed_fields :=
  repeat match goal with
         | H : _ && _ = true |- _ => apply andb_prop in H; destruct H
         | H : is_string _ = true |- _ =>
             apply is_string_inv in H; destruct H as [? H]
         | H : is_number _ = true |- _ =>
             apply is_number_inv in H; destruct H as [? H]
         | H : is_boolean _ = true |- _ =>
             apply is_boolean_inv in H; destruct H as [? H]
         end.

(** C1.  For a full configuration record whose guarded fields are all
    truthy (provider, model and tier not empty, numeric settings neither 0
    nor NaN) and whose provider and tier the limits lookup reads without
    an exception, [buildConfigFromForm] after [applyConfigToForm] returns
    the record's fields, the numeric ones as the parse of their string
    form. *)
Theorem build_after_apply (c : object) (p : Page.t) :
  full_config c = true ->
  no_falsy_field c = true ->
  lookup_returns c = true ->
  buildConfigFromForm (applyConfigToForm c p) = roundtrip_image c.
Proof.
  intros Hfull Htruthy Hret.
  assert (R : reads (applyConfigToForm c p) = true).
  { unfold no_falsy_field in Htruthy.
    repeat match goal with
           | H : _ && _ = true |- _ => apply andb_prop in H; destruct H
           end.
    assert (Hl : truthy (lookup (section_key Llm) c) = true).
    { apply (field_section c "llm" "type").
      intros E. rewrite E in *. discriminate. }
    destruct (applyConfigToForm_present_section c p Llm Hl eq_refl)
      as (Vl & _ & _).
    destruct (applyConfigToForm_present_section c p ProviderTier
                ltac:(assumption) eq_refl) as (_ & _ & Vt).
    unfold reads.
    rewrite (Vl "type" "#llm-type" (VStr "gemini")), (Vt eq_refl)
      by (cbn [value_bindings In]; tauto).
    unfold or. cbn [section_key].
    match goal with
    | T : truthy (field c "llm" "type") = true |- _ => rewrite T
    end.
    exact Hret. }
  assert (Reached : forall s, reached s (applyConfigToForm c p) = true)
    by (intros s; unfold reached; rewrite R; apply orb_true_r).
  clear Hret R.
  unfold full_config in Hfull. unfold no_falsy_field in Htruthy.
  typed_fields.
  assert (Hllm : truthy (lookup (section_key Llm) c) = true)
    by (apply (field_section c "llm" "type"); congruence).
  assert (Hfc : truthy (lookup (section_key FlowControl) c) = true)
    by (apply (field_section c "flow_control" "status_sleep_time");
        congruence).
  assert (Hdo : truthy (lookup (section_key DocstringOptions) c) = true)
    by (apply (field_section c "docstring_options" "overwrite_docstrings");
        congruence).
  assert (Huo : truthy (lookup (section_key UserOverrides) c) = true)
    by (apply (field_section c "user_overrides" "batch_size"); congruence).
  assert (Htier : truthy (lookup (section_key ProviderTier) c) = true)
    by assumption.
  destruct (applyConfigToForm_present_section c p Llm Hllm (Reached _))
    as (Vl & _ & _).
  destruct (applyConfigToForm_present_section c p FlowControl Hfc
              (Reached _)) as (Vf & _ & _).
  destruct (applyConfigToForm_present_section c p DocstringOptions Hdo
              (Reached _)) as (_ & Bd & _).
  destruct (applyConfigToForm_present_section c p UserOverrides Huo
              (Reached _)) as (Vu & Bu & _).
  destruct (applyConfigToForm_present_section c p ProviderTier Htier
              (Reached _)) as (_ & _ & Vt).
  clear Reached.
  unfold buildConfigFromForm, roundtrip_image, reparse.
  rewrite (Vl "type" "#llm-type" (VStr "gemini")),
    (Vl "api_key" "#llm-api-key" (VStr "")),
    (Vl "model" "#llm-model" (VStr "gemini-2.5-pro")),
    (Vl "temperature" "#llm-temperature" (VNum 0.1)),
    (Vl "max_tokens" "#llm-max-tokens" (VNum 16384)),
    (Vf "max_reader_search_attempts" "#max-reader-search-attempts" (VNum 2)),
    (Vf "max_verifier_rejections" "#max-verifier-rejections" (VNum 1)),
    (Vf "status_sleep_time" "#status-sleep-time" (VNum 1)),
    (Bd "overwrite_docstrings" "#overwrite-docstrings" false),
    (Vt eq_refl),
    (Bu "enable_conservative_limits" "#enable-conservative-limits" true),
    (Vu "max_components_per_minute" "#max-components-per-minute" (VNum 8)),
    (Vu "delay_between_requests" "#delay-between-requests" (VNum 2000)),
    (Bu "enable_batch_processing" "#enable-batch-processing" true),
    (Vu "batch_size" "#batch-size" (VNum 3))
    by (cbn [value_bindings checkbox_bindings In]; tauto).
  cbn [section_key].
  repeat match goal with
         | H : field _ _ _ = _ |- _ => rewrite H in *; clear H
         | H : lookup "current_provider_tier" _ = _ |- _ =>
             rewrite H in *; clear H
         end.
  rewrite val_or_empty, !val_or_string, !val_or_number by assumption.
  cbn [box_state truthy strict_neq_bool val_string ToString].
  repeat match goal with b : bool |- _ => destruct b end; reflexivity.
Qed.

(** The round trip of the sample record at temperature 0.7. *)
Lemma build_after_apply_sample :
  full_config (sample_config 0.7) = true
  /\ no_falsy_field (sample_config 0.7) = true
  /\ lookup_returns (sample_config 0.7) = true
  /\ buildConfigFromForm (applyConfigToForm (sample_config 0.7) blank)
     = roundtrip_image (sample_config 0.7).
Proof.
  assert (Hf : full_config (sample_config 0.7) = true) by reflexivity.
  assert (Ht : no_falsy_field (sample_config 0.7) = true)
    by (vm_compute; reflexivity).
  assert (Hr : lookup_returns (sample_config 0.7) = true) by reflexivity.
  split; [exact Hf|]. split; [exact Ht|]. split; [exact Hr|].
  exact (build_after_apply (sample_config 0.7) blank Hf Ht Hr).
Defined.

(** The sample record at temperature 0 is full, and comes back with the
    temperature 0.1 where the parse of its string form is 0. *)
Lemma build_after_apply_zero_temperature :
  let c := sample_config 0 in
  let back := buildConfigFromForm (applyConfigToForm c blank) in
  full_config c = true
  /\ prop (prop back "llm") "temperature" = VNum 0.1
  /\ prop (prop (roundtrip_image c) "llm") "temperature" = VNum 0
  /\ back <> roundtrip_image c.
Proof.
  cbv zeta.
  assert (H1 : prop (prop (buildConfigFromForm
                             (applyConfigToForm (sample_config 0) blank))
                       "llm") "temperature" = VNum 0.1)
    by (vm_compute; reflexivity).
  assert (H2 : prop (prop (roundtrip_image (sample_config 0)) "llm")
                 "temperature" = VNum 0)
    by (vm_compute; reflexivity).
  split; [reflexivity|]. split; [exact H1|]. split; [exact H2|].
  intros E. rewrite E, H2 in H1.
  apply (f_equal (fun v => match v with
                           | VNum n => Prim2SF n
                           | _ => S754_nan
                           end)) in H1.
  vm_compute in H1. discriminate H1.
Qed.

(** A full record with truthy fields, the provider [toString] and the
    tier [caller]: the limits lookup raises, [applyConfigToForm] ends
    there, and the flow control and overwrite controls are left as they
    were. *)
Lemma applyConfigToForm_raised :
  let p' := applyConfigToForm caller_config blank in
  full_config caller_config = true
  /\ no_falsy_field caller_config = true
  /\ lookup_returns caller_config = false
  /\ updateProviderLimitsDisplay p' = None
  /\ get_val p' "#llm-type" = "toString"
  /\ get_val p' "#provider-tier" = "caller"
  /\ get_val p' "#batch-size" = "3"
  /\ get_val p' "#status-sleep-time" = ""
  /\ is_checked p' "#overwrite-docstrings" = false
  /\ inner_html p' "#provider-limits-display" = "".
Proof. cbv zeta. repeat split; vm_compute; reflexivity. Qed.

(** ** The provider limits display *)

Lemma find_limits_row (provider tier : string) (l : limits) :
  find_limits provider tier = Row l -> In l table_rows.
Proof.
  unfold find_limits, providerLimits. cbn [entry].
  repeat match goal with
         | |- context [if String.eqb ?a ?b then _ else _] =>
             destruct (String.eqb a b); cbn [entry]
         end;
    try destruct (mem _ _); try destruct (builtin_member _ _) as [[|]|];
    intros [= <-] || discriminate; cbn; tauto.
Qed.

Lemma table_rows_eighty_percent : Forall eighty_percent table_rows.
Proof.
  repeat constructor.
  1-3: exists 150.
  4: exists 50.
  5-6: exists 500.
  7: exists 10000.
  all: repeat split; vm_compute; reflexivity.
Qed.

(** What [updateProviderLimitsDisplay] shows, by how the lookup ends: a
    row of the table is shown with an effective quota of 80% of its
    nominal limit, rounded down; with nothing found the placeholder is
    shown; when the lookup raises nothing is written. *)
Lemma updateProviderLimitsDisplay_shows (p : Page.t) :
  let shown q := inner_html q "#provider-limits-display" in
  match find_limits (get_val p "#llm-type") (get_val p "#provider-tier") with
  | TypeError => updateProviderLimitsDisplay p = None
  | Nothing =>
      option_map shown (updateProviderLimitsDisplay p)
      = Some limits_placeholder
  | Row l =>
      option_map shown (updateProviderLimitsDisplay p) = Some (limits_html l)
      /\ eighty_percent l
  | Builtin =>
      option_map shown (updateProviderLimitsDisplay p) = Some builtin_html
  end.
Proof.
  cbv zeta. unfold updateProviderLimitsDisplay.
  destruct (find_limits _ _) as [| |l|] eqn:E; cbn; try reflexivity.
  split; [reflexivity|].
  apply find_limits_row in E.
  exact (proj1 (Forall_forall _ _) table_rows_eighty_percent l E).
Qed.

(** C8.  The table has no row for the provider gemini and the tier
    [toString], and [updateProviderLimitsDisplay] does not show the
    placeholder for them: the lookup finds [Object.prototype.toString],
    and the display reads [undefined (using NaN)].  The form gets there
    through [applyConfigToForm] with a record naming that provider and
    tier. *)
Theorem updateProviderLimitsDisplay_inherited_tier :
  let undefined_limits :=
    display_text "undefined" "NaN" "undefined" "undefined" "undefined" in
  let shown p := inner_html p "#provider-limits-display" in
  in_table "gemini" "toString" = false
  /\ option_map shown (updateProviderLimitsDisplay gemini_toString)
     = Some undefined_limits
  /\ shown (applyConfigToForm toString_tier blank) = undefined_limits
  /\ String.eqb undefined_limits limits_placeholder = false.
Proof. cbv zeta. repeat split; vm_compute; reflexivity. Qed.

End ConfigFacts.

(* ================================================================== *)
(** * Properties of the log aggregator: proofs *)
(* ================================================================== *)

Module LogExportFacts.
Import JS LogExport LogExportSpec.

(** ** Recording *)

Lemma eqb_false_neq (a b : string) : String.eqb a b = false -> a <> b.
Proof. intros H E. apply String.eqb_neq in H. contradiction. Qed.

(** [++] on a counter that holds an integer from 0 to [2^53 - 1] gives
    the next integer. *)
Lemma incr_exact (n : Z) :
  0 <= n < 2 ^ 53 -> incr (of_Z n) = of_Z (n + 1).
Proof. apply NumberFacts.add_one_exact. Qed.

(** A counter that holds such an integer does not hold the next one. *)
Lemma succ_differs (n : Z) : 0 <= n < 2 ^ 53 -> of_Z n <> of_Z (n + 1).
Proof.
  intros B E.
  destruct (Z.eq_dec n (2 ^ 53 - 1)) as [-> | L].
  - apply (f_equal Prim2SF) in E. vm_compute in E. discriminate E.
  - apply NumberFacts.of_Z_inj in E; lia.
Qed.

(** What [addLogEntry] does to the tracked data, counters apart. *)
Lemma addLogEntry_frame (now level message : string) (details : value)
    (d : LogData.t) :
  let d' := addLogEntry now level message details d in
  let st := LogData.stats d in
  let st' := LogData.stats d' in
  LogData.logs d' =
    (LogData.logs d ++ [ {| LogEntry.timestamp := now;
                            LogEntry.level := level;
                            LogEntry.message := message;
                            LogEntry.details := details |} ])%list
  /\ Stats.startTime st' = Stats.startTime st
  /\ Stats.endTime st' = Stats.endTime st
  /\ Stats.totalComponents st' = Stats.totalComponents st
  /\ Stats.processedComponents st' = Stats.processedComponents st
  /\ LogData.apiCalls d' = LogData.apiCalls d
  /\ LogData.rateLimitEvents d' = LogData.rateLimitEvents d
  /\ LogData.config d' = LogData.config d.
Proof.
  cbv zeta. unfold addLogEntry. cbn [LogData.logs LogData.stats
    LogData.apiCalls LogData.rateLimitEvents LogData.config].
  destruct (String.eqb level "ERROR");
    [| destruct (String.eqb level "WARNING") ]; cbn; repeat split.
Qed.

(** The two counters after [addLogEntry], as the code computes them. *)
Lemma addLogEntry_counters_step (now level message : string)
    (details : value) (d : LogData.t) :
  let st := LogData.stats d in
  let st' := LogData.stats (addLogEntry now level message details d) in
  Stats.errors st' =
    (if String.eqb level "ERROR" then incr (Stats.errors st)
     else Stats.errors st)
  /\ Stats.warnings st' =
    (if String.eqb level "WARNING" then incr (Stats.warnings st)
     else Stats.warnings st).
Proof.
  cbv zeta. unfold addLogEntry. cbn [LogData.stats].
  destruct (String.eqb level "ERROR") eqn:He.
  - apply String.eqb_eq in He. subst level. cbn. split; reflexivity.
  - destruct (String.eqb level "WARNING"); cbn; split; reflexivity.
Qed.

(** C9.  [addLogEntry] appends exactly the new entry to the logs and
    leaves every statistics field other than the two counters, and the
    rest of the tracked data, as they were.  A level other than ERROR
    leaves the errors counter as it was; when that counter holds an
    integer [n] from 0 to [2^53 - 1], it holds [n + 1] afterwards if and
    only if the level is ERROR.  The same for the warnings counter and
    the level WARNING. *)
Theorem addLogEntry_effect (now level message : string) (details : value)
    (d : LogData.t) :
  let d' := addLogEntry now level message details d in
  let st := LogData.stats d in
  let st' := LogData.stats d' in
  LogData.logs d' =
    (LogData.logs d ++ [ {| LogEntry.timestamp := now;
                            LogEntry.level := level;
                            LogEntry.message := message;
                            LogEntry.details := details |} ])%list
  /\ List.length (LogData.logs d') = S (List.length (LogData.logs d))
  /\ (level <> "ERROR" -> Stats.errors st' = Stats.errors st)
  /\ (forall n : Z, 0 <= n < 2 ^ 53 -> Stats.errors st = of_Z n ->
        (Stats.errors st' = of_Z (n + 1) <-> level = "ERROR"))
  /\ (level <> "WARNING" -> Stats.warnings st' = Stats.warnings st)
  /\ (forall n : Z, 0 <= n < 2 ^ 53 -> Stats.warnings st = of_Z n ->
        (Stats.warnings st' = of_Z (n + 1) <-> level = "WARNING"))
  /\ Stats.startTime st' = Stats.startTime st
  /\ Stats.endTime st' = Stats.endTime st
  /\ Stats.totalComponents st' = Stats.totalComponents st
  /\ Stats.processedComponents st' = Stats.processedComponents st
  /\ LogData.apiCalls d' = LogData.apiCalls d
  /\ LogData.rateLimitEvents d' = LogData.rateLimitEvents d
  /\ LogData.config d' = LogData.config d.
Proof.
  cbv zeta.
  destruct (addLogEntry_frame now level message details d)
    as (L & F1 & F2 & F3 & F4 & F5 & F6 & F7).
  destruct (addLogEntry_counters_step now level message details d) as [E W].
  cbv zeta in L, F1, F2, F3, F4, F5, F6, F7, E, W.
  split; [exact L |].
  split; [rewrite L, length_app; cbn; lia |].
  split; [intros N; rewrite E;
          destruct (String.eqb level "ERROR") eqn:Q;
          [apply String.eqb_eq in Q; contradiction | reflexivity] |].
  split.
  { intros n B H. rewrite E, H.
    destruct (String.eqb level "ERROR") eqn:Q.
    - apply String.eqb_eq in Q. rewrite incr_exact by exact B.
      split; intros _; [exact Q | reflexivity].
    - apply eqb_false_neq in Q. split; [| contradiction].
      intros X. destruct (succ_differs n B X). }
  split; [intros N; rewrite W;
          destruct (String.eqb level "WARNING") eqn:Q;
          [apply String.eqb_eq in Q; contradiction | reflexivity] |].
  split.
  { intros n B H. rewrite W, H.
    destruct (String.eqb level "WARNING") eqn:Q.
    - apply String.eqb_eq in Q. rewrite incr_exact by exact B.
      split; intros _; [exact Q | reflexivity].
    - apply eqb_false_neq in Q. split; [| contradiction].
      intros X. destruct (succ_differs n B X). }
  repeat split; assumption.
Qed.

(** The first ERROR entry recorded on the initial data. *)
Lemma addLogEntry_effect_first_error :
  let d' := addLogEntry "2025-03-01T10:00:00.000Z" "ERROR" "failed" VNull
              LogData.initial in
  Stats.errors (LogData.stats d') = of_Z 1
  /\ Stats.warnings (LogData.stats d') = of_Z 0
  /\ List.length (LogData.logs d') = 1%nat.
Proof.
  cbv zeta.
  pose proof (addLogEntry_effect "2025-03-01T10:00:00.000Z" "ERROR" "failed"
                VNull LogData.initial) as H.
  cbv zeta in H.
  destruct H as (_ & Len & _ & E & W & _).
  split; [apply (E 0); [lia | reflexivity | reflexivity] |].
  split; [rewrite W; [reflexivity | discriminate] | exact Len].
Defined.

(** With the errors counter at [2^53], an ERROR entry is appended and the
    counter stays where it was: [2^53 + 1] is not a binary64 value. *)
Lemma addLogEntry_saturated :
  let d' := addLogEntry "2025-03-01T10:00:00.000Z" "ERROR" "failed" VNull
              saturated in
  Stats.errors (LogData.stats saturated) = 9007199254740992%float
  /\ Stats.errors (LogData.stats d') = 9007199254740992%float
  /\ List.length (LogData.logs d') = 1%nat.
Proof. cbv zeta. repeat split. Qed.

(** C3.  [addRateLimitEvent] called with the type RATE_LIMIT_HIT appends
    exactly one entry (of level WARNING) to the rate limit events and
    exactly one entry to the logs; when the warnings counter holds an
    integer [n] from 0 to [2^53 - 1], it holds [n + 1] afterwards. *)
Theorem addRateLimitEvent_hit (now now_log provider limitType : string)
    (currentUsage limit : number) (message : string) (d : LogData.t) :
  let d' := addRateLimitEvent now now_log "RATE_LIMIT_HIT" provider limitType
              currentUsage limit message d in
  (forall n : Z, 0 <= n < 2 ^ 53 ->
     Stats.warnings (LogData.stats d) = of_Z n ->
     Stats.warnings (LogData.stats d') = of_Z (n + 1))
  /\ LogData.rateLimitEvents d' =
       (LogData.rateLimitEvents d ++
        [ {| RateLimitEntry.timestamp := now;
             RateLimitEntry.type := "RATE_LIMIT_HIT";
             RateLimitEntry.provider := provider;
             RateLimitEntry.limitType := limitType;
             RateLimitEntry.currentUsage := currentUsage;
             RateLimitEntry.limit := limit;
             RateLimitEntry.message := message;
             RateLimitEntry.level := "WARNING" |} ])%list
  /\ List.length (LogData.rateLimitEvents d') =
       S (List.length (LogData.rateLimitEvents d))
  /\ LogData.logs d' =
       (LogData.logs d ++
        [ {| LogEntry.timestamp := now_log;
             LogEntry.level := "WARNING";
             LogEntry.message := ("Rate Limit Event: " ++ message)%string;
             LogEntry.details := VNull |} ])%list
  /\ List.length (LogData.logs d') = S (List.length (LogData.logs d)).
Proof.
  cbv zeta. unfold addRateLimitEvent, addLogEntry. cbn.
  split; [intros n B H; rewrite H; apply incr_exact; exact B |].
  repeat split; try reflexivity; rewrite length_app; cbn; lia.
Qed.

(** The first limit hit recorded on the initial data. *)
Lemma addRateLimitEvent_hit_first :
  let d' := addRateLimitEvent "2025-03-01T10:00:02.000Z"
              "2025-03-01T10:00:02.001Z" "RATE_LIMIT_HIT" "gemini" "requests"
              150 150 "slow down" LogData.initial in
  Stats.warnings (LogData.stats d') = of_Z 1
  /\ List.length (LogData.rateLimitEvents d') = 1%nat
  /\ List.length (LogData.logs d') = 1%nat.
Proof.
  cbv zeta.
  pose proof (addRateLimitEvent_hit "2025-03-01T10:00:02.000Z"
                "2025-03-01T10:00:02.001Z" "gemini" "requests" 150 150
                "slow down" LogData.initial) as H.
  cbv zeta in H.
  destruct H as (W & _ & Le & _ & Ll).
  split; [apply (W 0); [lia | reflexivity] |].
  split; [exact Le | exact Ll].
Defined.

(** With the warnings counter at [2^53], a limit hit appends its two
    entries and leaves the counter where it was. *)
Lemma addRateLimitEvent_saturated :
  let d' := addRateLimitEvent "2025-03-01T10:00:02.000Z"
              "2025-03-01T10:00:02.001Z" "RATE_LIMIT_HIT" "gemini" "requests"
              150 150 "slow down" saturated in
  Stats.warnings (LogData.stats saturated) = 9007199254740992%float
  /\ Stats.warnings (LogData.stats d') = 9007199254740992%float
  /\ List.length (LogData.rateLimitEvents d') = 1%nat
  /\ List.length (LogData.logs d') = 1%nat.
Proof. cbv zeta. repeat split. Qed.

(** ** Clearing *)

(** C4.  A confirmed [clearLogs] leaves the three sequences empty and the
    errors and warnings counters at 0, whatever they held before. *)
Theorem clearLogs_resets (s : state) :
  let d' := data (clearLogs true s) in
  LogData.logs d' = []
  /\ LogData.apiCalls d' = []
  /\ LogData.rateLimitEvents d' = []
  /\ Stats.errors (LogData.stats d') = 0%float
  /\ Stats.warnings (LogData.stats d') = 0%float.
Proof. cbn. repeat split. Qed.

(** C10.  A confirmed [clearLogs] keeps the start and end times, the
    total and processed component counts and the stored configuration. *)
Theorem clearLogs_frame (s : state) :
  let d := data s in
  let d' := data (clearLogs true s) in
  Stats.startTime (LogData.stats d') = Stats.startTime (LogData.stats d)
  /\ Stats.endTime (LogData.stats d') = Stats.endTime (LogData.stats d)
  /\ Stats.totalComponents (LogData.stats d') =
       Stats.totalComponents (LogData.stats d)
  /\ Stats.processedComponents (LogData.stats d') =
       Stats.processedComponents (LogData.stats d)
  /\ LogData.config d' = LogData.config d.
Proof. cbn. repeat split. Qed.

(** Without the confirmation nothing changes at all. *)
Lemma clearLogs_declined (s : state) : clearLogs false s = s.
Proof. reflexivity. Qed.

(** ** Export *)

Lemma append_nil_r (s : string) : s ++ "" = s.
Proof. induction s as [|a s IH]; cbn; [reflexivity | now rewrite IH]. Qed.

Lemma append_assoc (a b c : string) : (a ++ b) ++ c = a ++ b ++ c.
Proof. induction a as [|x a IH]; cbn; [reflexivity | now rewrite IH]. Qed.

Lemma concat_cons (x : string) (l : list string) :
  String.concat "" (x :: l) = x ++ String.concat "" l.
Proof. destruct l; cbn; [now rewrite append_nil_r | reflexivity]. Qed.

(** A [forEach] that appends one piece per element appends the pieces in
    order. *)
Lemma forEach_append_concat {A : Type} (line : A -> string) (l : list A)
    (acc : string) :
  forEach_append line l acc = acc ++ String.concat "" (List.map line l).
Proof.
  unfold forEach_append. revert acc.
  induction l as [|x l IH]; intro acc.
  - cbn. now rewrite append_nil_r.
  - cbn [fold_left List.map]. rewrite IH, concat_cons, append_assoc.
    reflexivity.
Qed.

(** The CSV export is the header row, then the rows of the log entries,
    then those of the API calls, then those of the rate limit events, a
    section that is not in the snapshot giving no row. *)
Lemma generateCSVExport_rows (data : ExportData.t) :
  let rows {A} (row : A -> string) (o : option (list A)) :=
    String.concat "" (List.map row (match o with Some l => l | None => [] end)) in
  generateCSVExport data =
    "Timestamp,Type,Level,Provider,Model,Message,Details" ++ nl
    ++ rows csv_of_log (ExportData.logs data)
    ++ rows csv_of_call (ExportData.apiCalls data)
    ++ rows csv_of_event (ExportData.rateLimitEvents data).
Proof.
  cbv zeta. unfold generateCSVExport.
  assert (step : forall A (row : A -> string) (o : option (list A)) acc,
            match o with
            | Some ((_ :: _) as l) => forEach_append row l acc
            | _ => acc
            end
            = acc ++ String.concat ""
                       (List.map row (match o with Some l => l | None => [] end))).
  { intros A row [[|x l]|] acc.
    - cbn. now rewrite append_nil_r.
    - apply forEach_append_concat.
    - cbn. now rewrite append_nil_r. }
  rewrite !step, !append_assoc. reflexivity.
Qed.

Section Serializer.

Variable JSON_stringify : ExportData.t -> string.

(** C6.  With a format other than json, txt and csv, [exportLogs] shows
    the error message Unknown export format and does nothing else: no
    file is handed to the browser, the data and the page are untouched. *)
Theorem exportLogs_unknown_format (now_name now_export : string) (s : state) :
  let format := Page.get_val (page s) "#export-format" in
  let s' := exportLogs JSON_stringify now_name now_export s in
  format <> "json" -> format <> "txt" -> format <> "csv" ->
  effects s' = (effects s ++ [ShowMessage "error" "Unknown export format"])%list
  /\ downloads (effects s') = downloads (effects s)
  /\ messages "error" (effects s')
     = (messages "error" (effects s) ++ ["Unknown export format"])%list
  /\ data s' = data s
  /\ page s' = page s.
Proof.
  cbv zeta. intros Hj Ht Hc. unfold exportLogs.
  apply String.eqb_neq in Hj, Ht, Hc. rewrite Hj, Ht, Hc. cbn.
  unfold downloads, messages.
  rewrite filter_app, flat_map_app. cbn. rewrite app_nil_r.
  repeat split.
Qed.

(** C5.  With only the logs section selected, what [exportLogs] does (the
    file it hands over, in any format, and the messages) is the same for
    any two states of the aggregator that hold the same logs: it does not
    depend on the API calls or the rate limit events, which the snapshot
    does not contain. *)
Theorem exportLogs_only_logs (now_name now_export : string) (p : Page.t)
    (done : list effect) (d1 d2 : LogData.t) :
  only_logs_selected p ->
  LogData.logs d1 = LogData.logs d2 ->
  let run d := exportLogs JSON_stringify now_name now_export
                 {| data := d; page := p; effects := done |} in
  ExportData.apiCalls (collect now_export p d1) = None
  /\ ExportData.rateLimitEvents (collect now_export p d1) = None
  /\ collect now_export p d1 = collect now_export p d2
  /\ effects (run d1) = effects (run d2).
Proof.
  intros (Hl & Ha & Hr & Hc & Hs) Hlogs. cbv zeta.
  assert (Hcollect : collect now_export p d1 = collect now_export p d2).
  { unfold collect. rewrite Hl, Ha, Hr, Hc, Hs, Hlogs. reflexivity. }
  repeat split.
  - unfold collect. cbn. now rewrite Ha.
  - unfold collect. cbn. now rewrite Hr.
  - exact Hcollect.
  - unfold exportLogs. cbn [data page effects]. rewrite Hcollect.
    destruct (String.eqb (Page.get_val p "#export-format") "json");
      [reflexivity|].
    destruct (String.eqb (Page.get_val p "#export-format") "txt");
      [reflexivity|].
    destruct (String.eqb (Page.get_val p "#export-format") "csv");
      reflexivity.
Qed.

End Serializer.

(** Under that selection the CSV file is the header row and the rows of
    the log entries, and nothing else. *)
Lemma generateCSVExport_only_logs (now_export : string) (p : Page.t)
    (d : LogData.t) :
  only_logs_selected p ->
  generateCSVExport (collect now_export p d) =
    "Timestamp,Type,Level,Provider,Model,Message,Details" ++ nl
    ++ String.concat "" (List.map csv_of_log (LogData.logs d)).
Proof.
  intros (Hl & Ha & Hr & Hc & Hs).
  rewrite generateCSVExport_rows. unfold collect. cbn.
  rewrite Hl, Ha, Hr. cbn.
  generalize (String.concat "" (List.map csv_of_log (LogData.logs d))).
  intro r. now rewrite !append_nil_r.
Qed.

(** The export of [busy] as xml. *)
Lemma exportLogs_unknown_format_xml :
  let s := {| data := busy; page := dialog "xml"; effects := [] |} in
  let s' := exportLogs count_logs "2025-03-01T10:05:00.000Z"
              "2025-03-01T10:05:00.000Z" s in
  effects s' = [ShowMessage "error" "Unknown export format"]
  /\ downloads (effects s') = []
  /\ messages "error" (effects s') = ["Unknown export format"]
  /\ data s' = busy
  /\ page s' = dialog "xml".
Proof.
  exact (exportLogs_unknown_format count_logs "2025-03-01T10:05:00.000Z"
           "2025-03-01T10:05:00.000Z"
           {| data := busy; page := dialog "xml"; effects := [] |}
           ltac:(discriminate) ltac:(discriminate) ltac:(discriminate)).
Defined.

(** The exports of [busy] and [quiet], which share their logs, as csv. *)
Lemma exportLogs_only_logs_csv :
  only_logs_selected (dialog "csv")
  /\ LogData.logs busy = LogData.logs quiet
  /\ LogData.apiCalls busy <> LogData.apiCalls quiet
  /\ let run d := exportLogs count_logs "2025-03-01T10:05:00.000Z"
                    "2025-03-01T10:05:00.000Z"
                    {| data := d; page := dialog "csv"; effects := [] |} in
     effects (run busy) = effects (run quiet).
Proof.
  assert (Hsel : only_logs_selected (dialog "csv")) by (repeat split).
  assert (Hlogs : LogData.logs busy = LogData.logs quiet) by reflexivity.
  split; [exact Hsel|]. split; [exact Hlogs|]. split; [discriminate|].
  exact (proj2 (proj2 (proj2
           (exportLogs_only_logs count_logs "2025-03-01T10:05:00.000Z"
              "2025-03-01T10:05:00.000Z" (dialog "csv") [] busy quiet
              Hsel Hlogs)))).
Defined.

(** C7.  The CSV export of a snapshot holding one API call whose error
    text is [bad "x"]: the header row and the row of the call, in whose
    last cell the two double quotes of the error text stand as they are,
    not doubled. *)
Theorem generateCSVExport_error_not_escaped :
  let cell := "Duration: 5ms, Error: bad " ++ dq ++ "x" ++ dq in
  generateCSVExport quoted_error_snapshot =
    "Timestamp,Type,Level,Provider,Model,Message,Details" ++ nl
    ++ quoted "2025-03-01T10:00:01.000Z" ++ "," ++ quoted "API Call" ++ ","
    ++ quoted "INFO" ++ "," ++ quoted "openai" ++ "," ++ quoted "gpt-4o" ++ ","
    ++ quoted "API Call - 10 input, 0 output tokens" ++ ","
    ++ quoted cell ++ nl
  /\ escape_quotes cell = "Duration: 5ms, Error: bad " ++ dq ++ dq ++ "x" ++ dq ++ dq
  /\ escape_quotes cell <> cell.
Proof.
  cbv zeta. split; [vm_compute; reflexivity|].
  split; [vm_compute; reflexivity|].
  intros E. vm_compute in E. discriminate E.
Qed.

End LogExportFacts.

(* ================================================================== *)
(** * More on the configuration binder *)
(* ================================================================== *)

Module ConfigMore.
Import JS Page Config ConfigSpec ConfigFacts.

(** ** Controls the binder never writes *)

Section Html.

Variable k : string.

Lemma keeps_html_val sel v : keeps_html (val sel v) k.
Proof. intros p. reflexivity. Qed.

Lemma keeps_html_prop_checked sel v : keeps_html (prop_checked sel v) k.
Proof. intros p. reflexivity. Qed.

Lemma keeps_html_when c body :
  keeps_html body k -> keeps_html (when c body) k.
Proof. intros H p. unfold when. destruct c; [apply H | reflexivity]. Qed.

Lemma keeps_html_nil : keeps_html (block []) k.
Proof. intros p. reflexivity. Qed.

Lemma keeps_html_cons s rest :
  keeps_html s k -> keeps_html (block rest) k ->
  keeps_html (block (s :: rest)) k.
Proof. intros Hs Hr p. rewrite block_cons, Hr. apply Hs. Qed.

Lemma keeps_html_display p q :
  String.eqb k "#provider-limits-display" = false ->
  updateProviderLimitsDisplay p = Some q ->
  inner_html q k = inner_html p k.
Proof.
  intros H. unfold updateProviderLimitsDisplay.
  destruct (find_limits _ _) as [| |l|]; intros [= <-];
    cbn; unfold upd; now rewrite H.
Qed.

Lemma keeps_html_and_then rest :
  String.eqb k "#provider-limits-display" = false ->
  keeps_html rest k ->
  keeps_html (and_then updateProviderLimitsDisplay rest) k.
Proof.
  intros N H p. unfold and_then.
  destruct (updateProviderLimitsDisplay p) as [q|] eqn:E; [|reflexivity].
  rewrite H. exact (keeps_html_display p q N E).
Qed.

End Html.

(** As [keeps], for a selector that is only known to differ from the
    ones written. *)
Ltac keeps_any :=
  lazymatch goal with
  | |- keeps_value (block []) _ => apply keeps_value_nil
  | |- keeps_value (block (_ :: _)) _ => apply keeps_value_cons; keeps_any
  | |- keeps_value (when _ _) _ => apply keeps_value_when; keeps_any
  | |- keeps_value (val _ _) _ =>
      apply keeps_value_val; first [reflexivity | assumption]
  | |- keeps_value (prop_checked _ _) _ => apply keeps_value_prop_checked
  | |- keeps_value (and_then _ _) _ =>
      apply keeps_value_and_then; keeps_any
  | |- keeps_checked (block []) _ => apply keeps_checked_nil
  | |- keeps_checked (block (_ :: _)) _ =>
      apply keeps_checked_cons; keeps_any
  | |- keeps_checked (when _ _) _ => apply keeps_checked_when; keeps_any
  | |- keeps_checked (prop_checked _ _) _ =>
      apply keeps_checked_prop_checked; first [reflexivity | assumption]
  | |- keeps_checked (val _ _) _ => apply keeps_checked_val
  | |- keeps_checked (and_then _ _) _ =>
      apply keeps_checked_and_then; keeps_any
  | |- keeps_html (block []) _ => apply keeps_html_nil
  | |- keeps_html (block (_ :: _)) _ => apply keeps_html_cons; keeps_any
  | |- keeps_html (when _ _) _ => apply keeps_html_when; keeps_any
  | |- keeps_html (val _ _) _ => apply keeps_html_val
  | |- keeps_html (prop_checked _ _) _ => apply keeps_html_prop_checked
  | |- keeps_html (and_then _ _) _ =>
      apply keeps_html_and_then;
      [first [reflexivity | assumption] | keeps_any]
  end.

Lemma not_in_cons_eqb (k x : string) (l : list string) :
  ~ In k (x :: l) -> String.eqb k x = false /\ ~ In k l.
Proof.
  intros H. split.
  - apply String.eqb_neq. intros ->. apply H. now left.
  - intros Hin. apply H. now right.
Qed.

Ltac differs H :=
  unfold bound_values, bound_boxes, sections in H;
  cbn [flat_map value_selectors checkbox_selectors value_bindings
       checkbox_bindings List.map app] in H;
  repeat (apply not_in_cons_eqb in H; destruct H as [? H]).

(** X13.  Whatever the request returns, [loadDefaultConfig] leaves every
    value control and every box that the configuration is not bound to
    as it was, and the inner HTML of everything but the limits
    display. *)
Theorem loadDefaultConfig_frame (r : response) (p : Page.t) (k : string) :
  let p' := loaded_page (loadDefaultConfig r p) in
  (~ In k bound_values -> get_val p' k = get_val p k)
  /\ (~ In k bound_boxes -> is_checked p' k = is_checked p k)
  /\ (k <> "#provider-limits-display" -> inner_html p' k = inner_html p k).
Proof.
  cbv zeta. destruct r as [c|e]; [|repeat split].
  cbn [loadDefaultConfig loaded_page]. split; [|split]; intros H.
  - assert (K : keeps_value (applyConfigToForm c) k); [|apply K].
    differs H. unfold applyConfigToForm. cbv zeta. keeps_any.
  - assert (K : keeps_checked (applyConfigToForm c) k); [|apply K].
    differs H. unfold applyConfigToForm. cbv zeta. keeps_any.
  - assert (K : keeps_html (applyConfigToForm c) k); [|apply K].
    apply String.eqb_neq in H. unfold applyConfigToForm. cbv zeta. keeps_any.
Qed.


Lemma loadDefaultConfig_frame_export_name :
  let p := val "#export-filename" (VStr "my-logs") blank in
  let p' := loaded_page (loadDefaultConfig (Success (sample_config 0.7)) p) in
  ~ In "#export-filename" bound_values
  /\ get_val p' "#export-filename" = "my-logs".
Proof.
  assert (H : ~ In "#export-filename" bound_values)
    by (cbv; intuition discriminate).
  split; [exact H|].
  exact (proj1 (loadDefaultConfig_frame (Success (sample_config 0.7))
                  (val "#export-filename" (VStr "my-logs") blank)
                  "#export-filename") H).
Defined.

(** ** The limits display *)

Lemma display_shows (p q : Page.t) :
  updateProviderLimitsDisplay p = Some q ->
  inner_html q "#provider-limits-display" = shown_limits p
  /\ reads p = true.
Proof.
  unfold updateProviderLimitsDisplay, shown_limits, reads.
  destruct (find_limits _ _) as [| |l|]; intros [= <-]; split; reflexivity.
Qed.

(** The provider and the tier decide what the display shows, on the
    pages whose lookup returns. *)
Lemma shown_limits_same (p q : Page.t) :
  get_val q "#llm-type" = get_val p "#llm-type" ->
  get_val q "#provider-tier" = get_val p "#provider-tier" ->
  reads p = true ->
  shown_limits q = shown_limits p /\ reads q = true.
Proof.
  unfold shown_limits, reads. intros -> ->.
  destruct (find_limits _ _) as [| |l|]; [discriminate | split; reflexivity ..].
Qed.

(** The display once the lookup and the statements after it are
    through, these leaving the display, the provider and the tier
    alone. *)
Lemma display_after_lookup (rest : stmt) (p : Page.t) :
  keeps_html rest "#provider-limits-display" ->
  keeps_value rest "#llm-type" ->
  keeps_value rest "#provider-tier" ->
  inner_html (and_then updateProviderLimitsDisplay rest p)
    "#provider-limits-display"
  = shown_limits (and_then updateProviderLimitsDisplay rest p).
Proof.
  intros Kh Kt Kr. unfold and_then.
  destruct (updateProviderLimitsDisplay p) as [q|] eqn:E.
  - destruct (display_shows p q E) as [S R].
    rewrite Kh, S. symmetry.
    apply (shown_limits_same p (rest q)); [| | exact R].
    + unfold get_val. rewrite Kt. exact (keeps_value_display _ p q E).
    + unfold get_val. rewrite Kr. exact (keeps_value_display _ p q E).
  - apply raised_not_read in E. unfold reads in E. unfold shown_limits.
    destruct (find_limits _ _); [reflexivity | discriminate E ..].
Qed.

(** The display, once [applyConfigToForm] is through, is the one of the
    provider and tier the form then holds. *)
Lemma display_after_apply (c : object) (p : Page.t) :
  inner_html (applyConfigToForm c p) "#provider-limits-display"
  = shown_limits (applyConfigToForm c p).
Proof.
  unfold applyConfigToForm. cbv zeta.
  rewrite 3 block_cons.
  set (q := when _ _ (when _ _ (when _ _ p))).
  change (block [and_then updateProviderLimitsDisplay ?tail] q)
    with (and_then updateProviderLimitsDisplay tail q).
  apply display_after_lookup; keeps_any.
Qed.


(** X15.  What a change handler of [initProviderLimitsHandlers] puts into
    the limits display depends on the provider and the tier only: of two
    pages that agree on them, and whose lookup returns, the one after
    the handler and the other after [updateProviderLimitsDisplay] show
    the same, whatever the conservative limits box holds. *)
Theorem display_depends_on_provider_and_tier (p1 p2 : Page.t) :
  get_val p1 "#llm-type" = get_val p2 "#llm-type" ->
  get_val p1 "#provider-tier" = get_val p2 "#provider-tier" ->
  reads p2 = true ->
  forall sel,
    In sel (List.map fst initProviderLimitsHandlers) ->
    option_map (fun q => inner_html q "#provider-limits-display")
      (updateProviderLimitsDisplay p2)
    = Some (inner_html (change initProviderLimitsHandlers sel p1)
              "#provider-limits-display").
Proof.
  intros Ht Hr R sel Hin.
  assert (E : change initProviderLimitsHandlers sel p1
              = and_then updateProviderLimitsDisplay (fun q => q) p1).
  { cbn in Hin. destruct Hin as [<-|[<-|[<-|[]]]]; reflexivity. }
  rewrite E. unfold and_then.
  destruct (shown_limits_same p2 p1 Ht Hr R) as [S R1].
  destruct (updateProviderLimitsDisplay p1) as [q1|] eqn:E1;
    [| apply raised_not_read in E1; rewrite E1 in R1; discriminate R1].
  destruct (updateProviderLimitsDisplay p2) as [q2|] eqn:E2;
    [| apply raised_not_read in E2; rewrite E2 in R; discriminate R].
  cbn [option_map].
  rewrite (proj1 (display_shows p1 q1 E1)), (proj1 (display_shows p2 q2 E2)).
  now rewrite S.
Qed.

Lemma display_ignores_conservative_box :
  let p := val "#provider-tier" (VStr "premium") claude_chosen in
  let toggled := prop_checked "#enable-conservative-limits" (VBool true) p in
  get_val toggled "#llm-type" = get_val p "#llm-type"
  /\ get_val toggled "#provider-tier" = get_val p "#provider-tier"
  /\ reads p = true
  /\ In "#enable-conservative-limits"
       (List.map fst initProviderLimitsHandlers)
  /\ option_map (fun q => inner_html q "#provider-limits-display")
       (updateProviderLimitsDisplay p)
     = Some (inner_html (change initProviderLimitsHandlers
                           "#enable-conservative-limits" toggled)
               "#provider-limits-display").
Proof.
  cbv zeta.
  assert (Hin : In "#enable-conservative-limits"
                  (List.map fst initProviderLimitsHandlers))
    by (cbn; tauto).
  split; [reflexivity|]. split; [reflexivity|]. split; [reflexivity|].
  split; [exact Hin|].
  exact (display_depends_on_provider_and_tier
           (prop_checked "#enable-conservative-limits" (VBool true)
              (val "#provider-tier" (VStr "premium") claude_chosen))
           (val "#provider-tier" (VStr "premium") claude_chosen)
           eq_refl eq_refl eq_refl "#enable-conservative-limits" Hin).
Defined.

(** ** Building after applying, and applying after building *)

Lemma built_sections (p : Page.t) (s : section) :
  truthy (lookup (section_key s) (built p))
  = match s with
    | ProviderTier => negb (String.eqb (get_val p "#provider-tier") "")
    | _ => true
    end.
Proof. destruct s; reflexivity. Qed.

(** X17.  Applying the record built from a form [p] to any form: the two
    boxes of the overrides and the API key are those of [p], and so is
    the overwrite box when the limits lookup returned; provider and model
    are those of [p], or the fallback when [p] holds none; the tier is
    that of [p], or left alone when [p] holds none. *)
Theorem apply_after_build (p p' : Page.t) :
  let back := applyConfigToForm (built p) p' in
  (forall sel, In sel (checkbox_selectors UserOverrides) ->
     is_checked back sel = is_checked p sel)
  /\ (reads back = true ->
      is_checked back "#overwrite-docstrings"
      = is_checked p "#overwrite-docstrings")
  /\ get_val back "#llm-api-key" = get_val p "#llm-api-key"
  /\ get_val back "#llm-type"
     = (if String.eqb (get_val p "#llm-type") "" then "gemini"
        else get_val p "#llm-type")
  /\ get_val back "#llm-model"
     = (if String.eqb (get_val p "#llm-model") "" then "gemini-2.5-pro"
        else get_val p "#llm-model")
  /\ get_val back "#provider-tier"
     = (if String.eqb (get_val p "#provider-tier") ""
        then get_val p' "#provider-tier"
        else get_val p "#provider-tier").
Proof.
  cbv zeta.
  destruct (applyConfigToForm_present_section (built p) p' Llm eq_refl
              eq_refl) as (Vl & _ & _).
  destruct (applyConfigToForm_present_section (built p) p' UserOverrides
              eq_refl eq_refl) as (_ & Bu & _).
  split; [|split; [|split; [|split; [|split]]]].
  - intros sel Hin. cbn in Hin.
    destruct Hin as [<-|[<-|[]]].
    + rewrite (Bu "enable_conservative_limits" _ true) by (cbn; tauto).
      cbn. now destruct (is_checked p _).
    + rewrite (Bu "enable_batch_processing" _ true) by (cbn; tauto).
      cbn. now destruct (is_checked p _).
  - intros R.
    destruct (applyConfigToForm_present_section (built p) p'
                DocstringOptions eq_refl R) as (_ & Bd & _).
    rewrite (Bd "overwrite_docstrings" _ false) by (cbn; tauto).
    reflexivity.
  - rewrite (Vl "api_key" _ (VStr "")) by (cbn; tauto).
    change (field (built p) (section_key Llm) "api_key")
      with (VStr (get_val p "#llm-api-key")).
    unfold or. cbn [truthy].
    now destruct (String.eqb (get_val p "#llm-api-key") "") eqn:E;
      [apply String.eqb_eq in E; rewrite E|].
  - rewrite (Vl "type" _ (VStr "gemini")) by (cbn; tauto).
    change (field (built p) (section_key Llm) "type")
      with (VStr (get_val p "#llm-type")).
    unfold or. cbn [truthy].
    now destruct (String.eqb (get_val p "#llm-type") "").
  - rewrite (Vl "model" _ (VStr "gemini-2.5-pro")) by (cbn; tauto).
    change (field (built p) (section_key Llm) "model")
      with (VStr (get_val p "#llm-model")).
    unfold or. cbn [truthy].
    now destruct (String.eqb (get_val p "#llm-model") "").
  - destruct (String.eqb (get_val p "#provider-tier") "") eqn:E.
    + assert (A : truthy (lookup (section_key ProviderTier) (built p)) = false)
        by (rewrite built_sections, E; reflexivity).
      assert (K : keeps_value (applyConfigToForm (built p)) "#provider-tier");
        [|apply K].
      unfold applyConfigToForm. cbv zeta. cbn [section_key] in A.
      rewrite A. keeps.
    + assert (A : truthy (lookup (section_key ProviderTier) (built p)) = true)
        by (rewrite built_sections, E; reflexivity).
      destruct (applyConfigToForm_present_section (built p) p' ProviderTier A
                  eq_refl) as (_ & _ & Vt).
      rewrite (Vt eq_refl). reflexivity.
Qed.


(** X18.  A numeric control that is empty is built as NaN, and applying
    the built record writes the hard-coded fallback into it, the
    statements of its section being reached. *)
Theorem emptied_number_restored (p p' : Page.t) (s : section)
    (f sel : string) (fb : value) :
  In (f, sel, fb) (value_bindings s) ->
  is_number fb = true ->
  get_val p sel = "" ->
  reached s (applyConfigToForm (built p) p') = true ->
  field (built p) (section_key s) f = VNum nan
  /\ get_val (applyConfigToForm (built p) p') sel = val_string fb.
Proof.
  intros Hin Hnum Hempty R.
  assert (Hs : truthy (lookup (section_key s) (built p)) = true)
    by (rewrite built_sections; destruct s; [| destruct Hin | | |];
        reflexivity).
  assert (Hnan : field (built p) (section_key s) f = VNum nan).
  { destruct s; cbn [value_bindings In] in Hin;
      repeat (destruct Hin as [[= <- <- <-]|Hin];
              [ try (cbn in Hnum; discriminate Hnum);
                match goal with
                | E : get_val p ?k = _ |- field _ _ ?name = _ =>
                    first
                      [ change (field (built p) _ name)
                          with (VNum (parseInt (get_val p k)))
                      | change (field (built p) _ name)
                          with (VNum (parseFloat (get_val p k))) ]
                end;
                rewrite Hempty; vm_compute; reflexivity |]);
      contradiction. }
  split; [exact Hnan|].
  rewrite (proj1 (applyConfigToForm_present_section (built p) p' s Hs R)
             f sel fb Hin).
  rewrite Hnan. reflexivity.
Qed.

Lemma emptied_number_restored_sleep_time :
  In ("status_sleep_time", "#status-sleep-time", VNum 1)
    (value_bindings FlowControl)
  /\ get_val blank "#status-sleep-time" = ""
  /\ reached FlowControl (applyConfigToForm (built blank) blank) = true
  /\ get_val (applyConfigToForm (built blank) blank) "#status-sleep-time"
     = "1".
Proof.
  assert (Hin : In ("status_sleep_time", "#status-sleep-time", VNum 1)
                  (value_bindings FlowControl)) by (cbn; tauto).
  assert (R : reached FlowControl (applyConfigToForm (built blank) blank)
              = true) by (vm_compute; reflexivity).
  split; [exact Hin|]. split; [reflexivity|]. split; [exact R|].
  exact (proj2 (emptied_number_restored blank blank FlowControl
                  "status_sleep_time" "#status-sleep-time" (VNum 1) Hin
                  eq_refl eq_refl R)).
Defined.



(** ** The first revision *)





(** ** The table, and applying twice *)

(** X22.  The lookup ends on a row of the table exactly when the table
    has a row for the pair: the rows of the table come before what the
    prototypes hold, and what the lookup finds for any other pair is no
    row. *)
Theorem find_limits_known (provider tier : string) :
  (exists l, find_limits provider tier = Row l)
  <-> In (provider, tier) known_pairs.
Proof.
  split.
  - intros [l H]. revert H.
    unfold find_limits, providerLimits. cbn [entry].
    repeat match goal with
           | |- context [if String.eqb ?a ?b then _ else _] =>
               let E := fresh "E" in
               destruct (String.eqb a b) eqn:E;
               [apply String.eqb_eq in E; subst|]; cbn [entry]
           end;
      try destruct (mem _ _); try destruct (builtin_member _ _) as [[|]|];
      intros H; try discriminate H; cbn; tauto.
  - intros H. cbn in H.
    repeat (destruct H as [[= <- <-]|H]; [eexists; reflexivity|]).
    contradiction.
Qed.

(** ** The effective quota *)

Lemma same_number_eq (x y : number) : same_number x y = true -> x = y.
Proof.
  unfold same_number. intros H. apply Prim2SF_inj.
  destruct (Prim2SF x) as [s | s | | s m e], (Prim2SF y) as [s' | s' | | s' m' e'];
    try discriminate H.
  - apply Bool.eqb_prop in H. now subst.
  - apply Bool.eqb_prop in H. now subst.
  - reflexivity.
  - apply andb_prop in H. destruct H as [H He].
    apply andb_prop in H. destruct H as [Hs Hm].
    apply Bool.eqb_prop in Hs. apply Pos.eqb_eq in Hm. apply Z.eqb_eq in He.
    now subst.
Qed.

Lemma upto_spec (n r : Z) : 0 <= r <= n -> In r (upto n).
Proof.
  intros B. unfold upto. apply in_map_iff. exists (Z.to_nat r).
  split; [lia |]. apply in_seq. lia.
Qed.

Lemma floor_checked :
  forallb (fun r => same_number (Math_floor (of_Z r * 0.8)%float)
                      (of_Z (r * 8 / 10)))
    (upto 10000) = true.
Proof. vm_compute. reflexivity. Qed.

(** X24.  The effective quota of a row is the whole part of 80% of its
    nominal limit, for every whole nominal limit up to 10000, the
    largest of the table: the product with the binary64 value nearest
    to 0.8 and the rounding down give [8 r / 10] rounded down. *)
Theorem effectiveRequests_floor (l : limits) (r : Z) :
  0 <= r <= 10000 ->
  requests l = of_Z r ->
  effectiveRequests l = of_Z (r * 8 / 10).
Proof.
  intros B E. unfold effectiveRequests. rewrite E.
  apply same_number_eq.
  exact (proj1 (forallb_forall _ _) floor_checked r (upto_spec 10000 r B)).
Qed.

Lemma effectiveRequests_floor_49 :
  let l := {| requests := 49; input := "20K"; output := "8K";
              tier := "Trial" |} in
  0 <= 49 <= 10000
  /\ requests l = of_Z 49
  /\ effectiveRequests l = 39%float.
Proof.
  cbv zeta.
  assert (B : 0 <= 49 <= 10000) by lia.
  assert (E : requests {| requests := 49; input := "20K"; output := "8K";
                          tier := "Trial" |} = of_Z 49)
    by (vm_compute; reflexivity).
  split; [exact B |]. split; [exact E |].
  exact (effectiveRequests_floor _ 49 B E).
Defined.

(** X25.  For each of the seven rows of the table, written out, the
    display of its provider and tier reads the nominal limit, the
    effective quota at 80% of it rounded down, the two token limits and
    the name of the tier. *)
Theorem table_display (provider tier i o t : string) (r : Z) (p : Page.t) :
  In (provider, tier, (r, i, o, t)) documented_limits ->
  get_val p "#llm-type" = provider ->
  get_val p "#provider-tier" = tier ->
  option_map (fun q => inner_html q "#provider-limits-display")
    (updateProviderLimitsDisplay p)
  = Some (display_text (Z_to_string r) (Z_to_string (r * 8 / 10)) i o t).
Proof.
  intros H Hp Ht. unfold updateProviderLimitsDisplay. cbv zeta.
  rewrite Hp, Ht. clear Hp Ht. cbn [documented_limits In] in H.
  repeat (destruct H as [H | H];
          [injection H as <- <- <- <- <- <-; vm_compute; reflexivity |]).
  contradiction.
Qed.

Lemma table_display_claude_premium :
  In ("claude", "premium", (500, "200K", "100K", "Premium")) documented_limits
  /\ get_val (chosen "claude" "premium") "#llm-type" = "claude"
  /\ get_val (chosen "claude" "premium") "#provider-tier" = "premium"
  /\ option_map (fun q => inner_html q "#provider-limits-display")
       (updateProviderLimitsDisplay (chosen "claude" "premium"))
     = Some (display_text "500" "400" "200K" "100K" "Premium").
Proof.
  assert (H : In ("claude", "premium", (500, "200K", "100K", "Premium"))
                documented_limits) by (cbn; tauto).
  split; [exact H |]. split; [reflexivity |]. split; [reflexivity |].
  exact (table_display "claude" "premium" "200K" "100K" "Premium" 500
           (chosen "claude" "premium") H eq_refl eq_refl).
Defined.

(** What [applyConfigToForm c] does to a control: it keeps it, or sets it
    to a value that does not depend on the page, or, for a control it
    writes after the limits lookup, sets it when the lookup returns and
    keeps it when the lookup raises. *)
Section Settles.

Variable k : string.

Lemma reads_and_then rest p q :
  keeps_value rest "#llm-type" -> keeps_value rest "#provider-tier" ->
  updateProviderLimitsDisplay p = Some q ->
  reads (rest q) = true.
Proof.
  intros Kt Kr E. destruct (display_shows p q E) as [_ R].
  refine (proj2 (shown_limits_same p (rest q) _ _ R)); unfold get_val.
  - rewrite Kt. exact (keeps_value_display _ p q E).
  - rewrite Kr. exact (keeps_value_display _ p q E).
Qed.

Lemma settles_value_and_then rest x :
  keeps_value rest "#llm-type" -> keeps_value rest "#provider-tier" ->
  sets_value rest k x ->
  settles_value (and_then updateProviderLimitsDisplay rest) k x.
Proof.
  intros Kt Kr H p. unfold and_then.
  destruct (updateProviderLimitsDisplay p) as [q|] eqn:E.
  - split; [intros _; apply H |].
    intros R. rewrite (reads_and_then rest p q Kt Kr E) in R. discriminate R.
  - split; [| reflexivity].
    intros R. rewrite (raised_not_read p E) in R. discriminate R.
Qed.

Lemma settles_value_last s x :
  settles_value s k x -> settles_value (block [s]) k x.
Proof. intros H p. exact (H p). Qed.

Lemma settles_value_later s rest x :
  keeps_value s k ->
  settles_value (block rest) k x -> settles_value (block (s :: rest)) k x.
Proof.
  intros K H p. rewrite block_cons.
  destruct (H (s p)) as [S E]. split; [exact S |].
  intros R. now rewrite (E R), K.
Qed.

Lemma settles_checked_and_then rest b :
  keeps_value rest "#llm-type" -> keeps_value rest "#provider-tier" ->
  sets_checked rest k b ->
  settles_checked (and_then updateProviderLimitsDisplay rest) k b.
Proof.
  intros Kt Kr H p. unfold and_then.
  destruct (updateProviderLimitsDisplay p) as [q|] eqn:E.
  - split; [intros _; apply H |].
    intros R. rewrite (reads_and_then rest p q Kt Kr E) in R. discriminate R.
  - split; [| reflexivity].
    intros R. rewrite (raised_not_read p E) in R. discriminate R.
Qed.

Lemma settles_checked_last s b :
  settles_checked s k b -> settles_checked (block [s]) k b.
Proof. intros H p. exact (H p). Qed.

Lemma settles_checked_later s rest b :
  keeps_checked s k ->
  settles_checked (block rest) k b ->
  settles_checked (block (s :: rest)) k b.
Proof.
  intros K H p. rewrite block_cons.
  destruct (H (s p)) as [S E]. split; [exact S |].
  intros R. now rewrite (E R), K.
Qed.

End Settles.

Ltac settles :=
  lazymatch goal with
  | |- settles_value (and_then _ _) _ _ =>
      apply settles_value_and_then; [keeps | keeps | sets]
  | |- settles_value (block [_]) _ _ =>
      apply settles_value_last; settles
  | |- settles_value (block (_ :: _)) _ _ =>
      apply settles_value_later; [keeps | settles]
  | |- settles_checked (and_then _ _) _ _ =>
      apply settles_checked_and_then; [keeps | keeps | sets]
  | |- settles_checked (block [_]) _ _ =>
      apply settles_checked_last; settles
  | |- settles_checked (block (_ :: _)) _ _ =>
      apply settles_checked_later; [keeps | settles]
  end.

Ltac kept_or_set :=
  unfold applyConfigToForm; cbv zeta;
  match goal with
  | |- context [when (truthy (lookup ?key ?c)) _] =>
      destruct (truthy (lookup key c));
      first [ left; solve [keeps]
            | right; left; eexists; solve [sets]
            | right; right; eexists; solve [settles] ]
  end.

Lemma value_kept_or_set (c : object) (k : string) :
  keeps_value (applyConfigToForm c) k
  \/ (exists x, sets_value (applyConfigToForm c) k x)
  \/ (exists x, settles_value (applyConfigToForm c) k x).
Proof.
  destruct (in_dec string_dec k bound_values) as [Hin|Hout].
  - cbv [bound_values sections flat_map value_selectors value_bindings
         List.map app] in Hin.
    repeat (destruct Hin as [<-|Hin]; [kept_or_set|]). contradiction.
  - left. differs Hout. unfold applyConfigToForm. cbv zeta. keeps_any.
Qed.

Lemma box_kept_or_set (c : object) (k : string) :
  keeps_checked (applyConfigToForm c) k
  \/ (exists b, sets_checked (applyConfigToForm c) k b)
  \/ (exists b, settles_checked (applyConfigToForm c) k b).
Proof.
  destruct (in_dec string_dec k bound_boxes) as [Hin|Hout].
  - cbv [bound_boxes sections flat_map checkbox_selectors checkbox_bindings
         List.map app] in Hin.
    repeat (destruct Hin as [<-|Hin]; [kept_or_set|]). contradiction.
  - left. differs Hout. unfold applyConfigToForm. cbv zeta. keeps_any.
Qed.

(** The provider and the tier are written before the limits lookup:
    applying a second time leaves them, and so the outcome of the
    lookup, as they are. *)
Lemma early_kept_or_set (c : object) (k : string) :
  k = "#llm-type" \/ k = "#provider-tier" ->
  keeps_value (applyConfigToForm c) k
  \/ exists x, sets_value (applyConfigToForm c) k x.
Proof.
  intros [-> | ->]; unfold applyConfigToForm; cbv zeta;
    match goal with
    | |- context [when (truthy (lookup ?key ?c)) _] =>
        destruct (truthy (lookup key c));
        first [ left; solve [keeps] | right; eexists; solve [sets] ]
    end.
Qed.

Lemma reads_twice (c : object) (p : Page.t) :
  reads (applyConfigToForm c (applyConfigToForm c p))
  = reads (applyConfigToForm c p).
Proof.
  assert (V : forall k, k = "#llm-type" \/ k = "#provider-tier" ->
                control_value (applyConfigToForm c (applyConfigToForm c p)) k
                = control_value (applyConfigToForm c p) k).
  { intros k Hk. destruct (early_kept_or_set c k Hk) as [K|[x S]];
      [apply K | now rewrite !S]. }
  unfold reads, get_val. now rewrite !V by tauto.
Qed.

(** X23.  Applying the same configuration record twice leaves the page
    as applying it once does: every value, every box and every inner
    HTML, the limits display included. *)
Theorem applyConfigToForm_twice (c : object) (p : Page.t) :
  same_page (applyConfigToForm c (applyConfigToForm c p))
            (applyConfigToForm c p).
Proof.
  pose proof (reads_twice c p) as RR.
  assert (V : forall k, get_val (applyConfigToForm c (applyConfigToForm c p)) k
                        = get_val (applyConfigToForm c p) k).
  { intros k. unfold get_val.
    destruct (value_kept_or_set c k) as [K|[[x S]|[x S]]];
      [apply K | now rewrite !S |].
    destruct (S (applyConfigToForm c p)) as [S2 K2].
    destruct (S p) as [S1 _].
    destruct (reads (applyConfigToForm c p)) eqn:R.
    - rewrite (S2 RR). symmetry. exact (S1 eq_refl).
    - exact (K2 RR). }
  intros k. split; [apply V|]. split.
  - unfold is_checked.
    destruct (box_kept_or_set c k) as [K|[[b S]|[b S]]];
      [apply K | now rewrite !S |].
    destruct (S (applyConfigToForm c p)) as [S2 K2].
    destruct (S p) as [S1 _].
    destruct (reads (applyConfigToForm c p)) eqn:R.
    + rewrite (S2 RR). symmetry. exact (S1 eq_refl).
    + exact (K2 RR).
  - destruct (String.eqb k "#provider-limits-display") eqn:E.
    + apply String.eqb_eq in E. subst k.
      rewrite !display_after_apply. unfold shown_limits.
      rewrite !V.
      destruct (find_limits _ _) eqn:F; try reflexivity.
      assert (R : reads (applyConfigToForm c p) = false)
        by (unfold reads; now rewrite F).
      clear F.
      assert (K : forall q, reads (applyConfigToForm c q) = false ->
                  inner_html (applyConfigToForm c q) "#provider-limits-display"
                  = inner_html q "#provider-limits-display").
      { intros q. unfold applyConfigToForm. cbv zeta.
        rewrite 3 block_cons.
        set (q' := when _ _ (when _ _ (when _ _ q))).
        assert (Kq : inner_html q' "#provider-limits-display"
                     = inner_html q "#provider-limits-display").
        { subst q'.
          repeat match goal with
                 | |- inner_html (when ?b ?body ?x) ?sel = _ =>
                     let H := fresh in
                     assert (H : keeps_html (when b body) sel) by keeps_any;
                     rewrite H; clear H
                 end.
          reflexivity. }
        change (block [and_then updateProviderLimitsDisplay ?tail] q')
          with (and_then updateProviderLimitsDisplay tail q').
        unfold and_then.
        destruct (updateProviderLimitsDisplay q') as [q''|] eqn:U;
          [| intros _; exact Kq].
        intros Rq.
        match goal with
        | Rq : reads (?tail q'') = false |- _ =>
            assert (Rt : reads (tail q'') = true)
              by (apply (reads_and_then tail q' q''); [keeps | keeps | exact U])
        end.
        rewrite Rt in Rq. discriminate Rq. }
      apply K. rewrite RR. exact R.
    + assert (K : keeps_html (applyConfigToForm c) k); [|apply K].
      unfold applyConfigToForm. cbv zeta. keeps_any.
Qed.

End ConfigMore.

(* ================================================================== *)
(** * More on the log aggregator *)
(* ================================================================== *)

Module LogExportMore.
Import JS LogExport LogExportSpec LogExportFacts.

(** ** The layout of the CSV export *)




(** ** Empty sections *)

(** X2.  A section that is selected but empty is exported as if it had
    not been selected: neither the CSV nor the text export changes when
    every empty sequence is taken out of the snapshot. *)
Theorem export_empty_as_absent (data : ExportData.t) :
  generateCSVExport (drop_empty data) = generateCSVExport data
  /\ generateTextExport (drop_empty data) = generateTextExport data.
Proof.
  assert (skip : forall (A B : Type) (o : option (list A))
                        (f : list A -> B) (b : B),
            match without_empty o with
            | Some ((_ :: _) as l) => f l
            | _ => b
            end
            = match o with
              | Some ((_ :: _) as l) => f l
              | _ => b
              end)
    by (intros A B [[|x l]|] f b; reflexivity).
  unfold generateCSVExport, generateTextExport, drop_empty.
  cbn [ExportData.logs ExportData.apiCalls ExportData.rateLimitEvents
       ExportData.config ExportData.stats ExportData.metadata_].
  split.
  - rewrite (skip _ _ (ExportData.logs data)),
      (skip _ _ (ExportData.apiCalls data)),
      (skip _ _ (ExportData.rateLimitEvents data)).
    reflexivity.
  - rewrite (skip _ _ (ExportData.logs data)),
      (skip _ _ (ExportData.apiCalls data)),
      (skip _ _ (ExportData.rateLimitEvents data)).
    reflexivity.
Qed.

(** X3.  With no section selected the CSV export is the header row alone
    and the text export is its seven-line preamble alone, whatever the
    aggregator holds. *)
Theorem export_nothing_selected (now_export : string) (p : Page.t)
    (d : LogData.t) :
  Page.is_checked p "#include-logs" = false ->
  Page.is_checked p "#include-api-calls" = false ->
  Page.is_checked p "#include-rate-limits" = false ->
  Page.is_checked p "#include-config" = false ->
  Page.is_checked p "#include-stats" = false ->
  let snapshot := collect now_export p d in
  generateCSVExport snapshot
  = "Timestamp,Type,Level,Provider,Model,Message,Details" ++ nl
  /\ generateTextExport snapshot
     = text_preamble {| exportTime := now_export;
                        format := Page.get_val p "#export-format";
                        version := "1.0" |}.
Proof.
  intros Hl Ha Hr Hc Hs. cbv zeta.
  unfold collect. rewrite Hl, Ha, Hr, Hc, Hs.
  split; reflexivity.
Qed.

Lemma export_nothing_selected_busy :
  Page.is_checked ConfigSpec.blank "#include-logs" = false
  /\ generateCSVExport (collect "2025-03-01T10:05:01.000Z" ConfigSpec.blank busy)
     = "Timestamp,Type,Level,Provider,Model,Message,Details" ++ nl.
Proof.
  split; [reflexivity|].
  exact (proj1 (export_nothing_selected "2025-03-01T10:05:01.000Z"
                  ConfigSpec.blank busy eq_refl eq_refl eq_refl eq_refl
                  eq_refl)).
Defined.

(** ** Reading a cell back *)










(** ** More on recording *)

(** X5.  [addAPICallEntry] appends exactly the new call and changes
    nothing else: the statistics, hence the error counter, stay as they
    were even when the call carries an error. *)
Theorem addAPICallEntry_effect (now provider model : string)
    (inputTokens outputTokens duration : number) (error : value)
    (d : LogData.t) :
  let d' := addAPICallEntry now provider model inputTokens outputTokens
              duration error d in
  LogData.apiCalls d' =
    (LogData.apiCalls d ++
     [ {| ApiEntry.timestamp := now;
          ApiEntry.provider := provider;
          ApiEntry.model := model;
          ApiEntry.inputTokens := inputTokens;
          ApiEntry.outputTokens := outputTokens;
          ApiEntry.duration := duration;
          ApiEntry.error := error |} ])%list
  /\ List.length (LogData.apiCalls d') = S (List.length (LogData.apiCalls d))
  /\ LogData.stats d' = LogData.stats d
  /\ LogData.logs d' = LogData.logs d
  /\ LogData.rateLimitEvents d' = LogData.rateLimitEvents d
  /\ LogData.config d' = LogData.config d.
Proof.
  cbv zeta. unfold addAPICallEntry. cbn.
  repeat split. rewrite length_app. cbn. lia.
Qed.

(** X6.  [addRateLimitEvent] with a type other than RATE_LIMIT_HIT leaves
    the statistics untouched and records the event and its log entry at
    level INFO. *)
Theorem addRateLimitEvent_other (now now_log type provider limitType : string)
    (currentUsage limit : number) (message : string) (d : LogData.t) :
  type <> "RATE_LIMIT_HIT" ->
  let d' := addRateLimitEvent now now_log type provider limitType
              currentUsage limit message d in
  LogData.stats d' = LogData.stats d
  /\ LogData.rateLimitEvents d' =
       (LogData.rateLimitEvents d ++
        [ {| RateLimitEntry.timestamp := now;
             RateLimitEntry.type := type;
             RateLimitEntry.provider := provider;
             RateLimitEntry.limitType := limitType;
             RateLimitEntry.currentUsage := currentUsage;
             RateLimitEntry.limit := limit;
             RateLimitEntry.message := message;
             RateLimitEntry.level := "INFO" |} ])%list
  /\ LogData.logs d' =
       (LogData.logs d ++
        [ {| LogEntry.timestamp := now_log;
             LogEntry.level := "INFO";
             LogEntry.message := ("Rate Limit Event: " ++ message)%string;
             LogEntry.details := VNull |} ])%list.
Proof.
  intros Ht. cbv zeta. unfold addRateLimitEvent, addLogEntry.
  apply String.eqb_neq in Ht. rewrite Ht. cbn.
  repeat split.
Qed.

Lemma addRateLimitEvent_other_sample :
  let d' := addRateLimitEvent "2025-03-01T10:00:02.000Z"
              "2025-03-01T10:00:02.001Z" "RATE_LIMIT_RESET" "gemini"
              "requests" 0 150 "window reset" busy in
  "RATE_LIMIT_RESET" <> "RATE_LIMIT_HIT"
  /\ LogData.stats d' = LogData.stats busy.
Proof.
  assert (H : "RATE_LIMIT_RESET" <> "RATE_LIMIT_HIT") by discriminate.
  split; [exact H|].
  exact (proj1 (addRateLimitEvent_other "2025-03-01T10:00:02.000Z"
                  "2025-03-01T10:00:02.001Z" "RATE_LIMIT_RESET" "gemini"
                  "requests" 0 150 "window reset" busy H)).
Defined.

(** ** What the recording functions keep true *)

Lemma count_level_app lvl l e :
  count_level lvl (l ++ [e])
  = count_level lvl l + (if String.eqb (LogEntry.level e) lvl then 1 else 0).
Proof.
  unfold count_level. rewrite filter_app, length_app. cbn [filter].
  destruct (String.eqb (LogEntry.level e) lvl); cbn [List.length]; lia.
Qed.

Lemma count_level_bound lvl l :
  0 <= count_level lvl l <= Z.of_nat (List.length l).
Proof.
  unfold count_level.
  pose proof (filter_length_le (fun e => String.eqb (LogEntry.level e) lvl) l).
  lia.
Qed.

Lemma addLogEntry_counters now level message details d :
  Z.of_nat (List.length (LogData.logs d)) < 2 ^ 53 ->
  counters_match d -> counters_match (addLogEntry now level message details d).
Proof.
  intros B [He Hw].
  pose proof (count_level_bound "ERROR" (LogData.logs d)) as Be.
  pose proof (count_level_bound "WARNING" (LogData.logs d)) as Bw.
  unfold counters_match, addLogEntry.
  cbn [LogData.logs LogData.stats]. rewrite !count_level_app.
  cbn [LogEntry.level].
  destruct (String.eqb level "ERROR") eqn:E.
  - apply String.eqb_eq in E. subst level. cbn [String.eqb Ascii.eqb Bool.eqb].
    cbn [Stats.errors Stats.warnings]. rewrite He, Hw, Z.add_0_r.
    split; [apply LogExportFacts.incr_exact; lia | reflexivity].
  - destruct (String.eqb level "WARNING");
      cbn [Stats.errors Stats.warnings]; rewrite ?He, ?Hw, ?Z.add_0_r;
      (split; [reflexivity | try reflexivity]).
    apply LogExportFacts.incr_exact; lia.
Qed.

(** X7.  In every state the script's functions reach from the initial one
    (statistics patches leaving the two counters alone), the error and
    warning counters are the numbers of ERROR and WARNING entries of
    the log, the log holding fewer than [2^53] entries (an array of the
    language holds fewer than [2^32]). *)
Theorem recorded_counters_match (d : LogData.t) :
  recorded d ->
  Z.of_nat (List.length (LogData.logs d)) < 2 ^ 53 ->
  counters_match d.
Proof.
  induction 1 as [| now d _ IH | now level message details d _ IH
                  | now provider model i o t e d _ IH
                  | now now_log type provider limitType usage limit message d _ IH
                  | config d _ IH | patch d _ IH He Hw | now d _ IH
                  | confirmed s _ IH ]; intros B.
  - split; reflexivity.
  - exact (IH B).
  - assert (B' : Z.of_nat (List.length (LogData.logs d)) < 2 ^ 53).
    { unfold addLogEntry in B. cbn [LogData.logs] in B.
      rewrite length_app in B. lia. }
    apply addLogEntry_counters; [exact B' | exact (IH B')].
  - exact (IH B).
  - assert (B' : Z.of_nat (List.length (LogData.logs d)) < 2 ^ 53).
    { unfold addRateLimitEvent, addLogEntry in B. cbn [LogData.logs] in B.
      rewrite length_app in B. lia. }
    unfold addRateLimitEvent. apply addLogEntry_counters; [exact B' |].
    exact (IH B').
  - exact (IH B).
  - destruct (IH B) as [IHe IHw]. unfold counters_match, updateProcessingStats.
    cbn [LogData.stats LogData.logs Stats.errors Stats.warnings].
    rewrite He, Hw. split; assumption.
  - exact (IH B).
  - destruct confirmed; [split; reflexivity | exact (IH B)].
Qed.

Lemma recorded_busy : recorded busy.
Proof.
  unfold busy.
  apply recorded_event, recorded_call, recorded_log, recorded_initial.
Qed.

Lemma recorded_counters_match_busy :
  recorded busy
  /\ Z.of_nat (List.length (LogData.logs busy)) < 2 ^ 53
  /\ counters_match busy.
Proof.
  assert (B : Z.of_nat (List.length (LogData.logs busy)) < 2 ^ 53)
    by (vm_compute; reflexivity).
  split; [exact recorded_busy|].
  split; [exact B|].
  exact (recorded_counters_match busy recorded_busy B).
Defined.

(** X8.  In every such state the log holds at least as many entries as
    there are rate limit events: each event was logged, and clearing
    empties both. *)
Theorem recorded_events_logged (d : LogData.t) :
  recorded d ->
  (List.length (LogData.rateLimitEvents d) <= List.length (LogData.logs d))%nat.
Proof.
  induction 1 as [| now d _ IH | now level message details d _ IH
                  | now provider model i o t e d _ IH
                  | now now_log type provider limitType usage limit message d _ IH
                  | config d _ IH | patch d _ IH He Hw | now d _ IH
                  | confirmed s _ IH ].
  - cbn. lia.
  - exact IH.
  - unfold addLogEntry. cbn. rewrite length_app. cbn. lia.
  - exact IH.
  - unfold addRateLimitEvent, addLogEntry. cbn. rewrite !length_app. cbn. lia.
  - exact IH.
  - exact IH.
  - exact IH.
  - destruct confirmed; [cbn; lia | exact IH].
Qed.

Lemma recorded_events_logged_busy :
  recorded busy
  /\ (List.length (LogData.rateLimitEvents busy)
      <= List.length (LogData.logs busy))%nat.
Proof.
  split; [exact recorded_busy|].
  exact (recorded_events_logged busy recorded_busy).
Defined.

(** ** Patching the statistics *)

Lemma spread_later {A : Type} (old : A) (first second : option A) :
  spread (spread old first) second = spread old (later first second).
Proof. destruct first, second; reflexivity. Qed.

(** X9.  Two [updateProcessingStats] in a row are one, with the second
    patch spread over the first; the empty patch changes nothing. *)
Theorem updateProcessingStats_compose (first second : StatsPatch.t)
    (d : LogData.t) :
  updateProcessingStats second (updateProcessingStats first d)
  = updateProcessingStats (patch_then first second) d
  /\ updateProcessingStats empty_patch d = d.
Proof.
  split.
  - unfold updateProcessingStats, patch_then. cbn.
    now rewrite !spread_later.
  - destruct d as [l a r c [s e t p er w]]. reflexivity.
Qed.


(** ** A supported format *)

Section Downloads.

Variable JSON_stringify : ExportData.t -> string.




End Downloads.



(** ** The default file name *)

Lemma occurs_append c a b : occurs c (a ++ b) = occurs c a || occurs c b.
Proof.
  induction a as [|x a IH]; cbn; [reflexivity|].
  now rewrite IH, orb_assoc.
Qed.

Lemma occurs_substring c (s : string) :
  occurs c s = false -> forall n m, occurs c (substring n m s) = false.
Proof.
  induction s as [|a s IH]; intros H n m.
  - destruct n, m; reflexivity.
  - cbn in H. apply orb_false_elim in H. destruct H as [Ha Hs].
    destruct n as [|n]; [destruct m as [|m]|]; cbn.
    + reflexivity.
    + rewrite Ha. now apply IH.
    + now apply IH.
Qed.

Lemma occurs_replace_colon_dot (c : ascii) (s : string) :
  c = ":"%char \/ c = "."%char -> occurs c (replace_colon_dot s) = false.
Proof.
  intros Hc. induction s as [|a s IH]; [reflexivity|].
  cbn [replace_colon_dot occurs]. rewrite IH, orb_false_r.
  destruct (Ascii.eqb a ":") eqn:E1; [|destruct (Ascii.eqb a ".") eqn:E2];
    cbn [orb].
  - destruct Hc as [-> | ->]; reflexivity.
  - destruct Hc as [-> | ->]; reflexivity.
  - destruct Hc as [-> | ->]; assumption.
Qed.

Lemma length_replace_colon_dot (s : string) :
  String.length (replace_colon_dot s) = String.length s.
Proof. induction s as [|a s IH]; cbn; congruence. Qed.

Lemma length_substring_0 (s : string) (m : nat) :
  (m <= String.length s)%nat -> String.length (substring 0 m s) = m.
Proof.
  revert m. induction s as [|a s IH]; intros [|m] H; cbn in *;
    [reflexivity | lia | reflexivity | rewrite IH; lia].
Qed.

(** X11.  The default file name holds no colon and no dot, whatever the
    clock string, and is twelve characters longer than the clock string
    without its last five. *)
Theorem default_filename_safe (now : string) :
  occurs ":" (default_filename now) = false
  /\ occurs "." (default_filename now) = false
  /\ String.length (default_filename now)
     = (12 + (String.length now - 5))%nat.
Proof.
  unfold default_filename, slice_drop_last.
  rewrite !occurs_append, length_replace_colon_dot.
  repeat split.
  - rewrite occurs_substring; [reflexivity|].
    apply occurs_replace_colon_dot. now left.
  - rewrite occurs_substring; [reflexivity|].
    apply occurs_replace_colon_dot. now right.
  - assert (L : forall a b, String.length (a ++ b)
                            = (String.length a + String.length b)%nat)
      by (induction a as [|x a IHa]; intros b; cbn; [|rewrite IHa];
          reflexivity).
    rewrite L, length_substring_0; [reflexivity|].
    rewrite length_replace_colon_dot. lia.
Qed.

(** ** The configuration in the text export *)


End LogExportMore.
